(** * caddy_deployer: a shallow embedding of [CaddyDeployer]

    The development follows [src/caddy_deployer.py]:

    - [PyStr]      the Python string operations the script relies on
                   ([startswith], [in], [split(":")[0]], [strip], [lower],
                   slices, [str(int)], [int(str)]);
    - [Render]     the three Caddyfile templates of [generate_config];
    - [Extract]    the regular expressions with which the health check
                   reads ports and endpoints back from the Caddyfile;
    - [Health]     the check results and the aggregation of [health_check];
    - [Supervisor] files, process table, log and the state/exception/trace
                   monad in which [generate_config], [deploy], [undeploy]
                   and the health checks run;
    - [Scenario]   a few concrete machines;
    - [PyStrFacts], [RenderFacts], [HealthFacts], [SupervisorFacts]
                   the properties;
    - [IntFacts], [RenderProps], [LogProps], [LifecycleProps],
      [HealthProps], [ExtractFacts]
                   further properties of the same operations.

    Strings are byte strings: a Python [str] is represented by its UTF-8
    encoding, so the Chinese comments of the templates and the log messages are
    kept as they are in the source.  All needles the script searches for are
    ASCII, and UTF-8 is self-synchronising, so prefix and substring tests on
    the encoding agree with the tests on code points; [lower], [strip] and
    [int] are the ASCII parts of the Python operations, and a slice counts
    bytes.

    What lies outside the script (the passing of time, [Popen], the socket,
    HTTP and TLS probes, [caddy validate]) is a parameter [Env] of every
    operation; the properties hold for every environment. *)

From Stdlib Require Import String Ascii List ZArith Lia Bool.
From Stdlib Require Import DecimalString DecimalPos.
Import ListNotations.

Open Scope string_scope.

(* ===================================================================== *)
(** * Python string operations *)
(* ===================================================================== *)

Module PyStr.

(** The two characters that cannot be written inside a literal. *)
Definition dq : string := String "034"%char EmptyString.
Definition nl : string := String "010"%char EmptyString.

(** [s.startswith(p)] *)
Definition startswith (s p : string) : bool := String.prefix p s.

(** [needle in s] *)
Fixpoint contains (needle s : string) : bool :=
  String.prefix needle s ||
  match s with
  | EmptyString => false
  | String _ s' => contains needle s'
  end.

(** [s.split(sep)[0]] for a one-character separator: the text before the
    first occurrence of [sep], or all of [s] when there is none. *)
Fixpoint split_head (sep : ascii) (s : string) : string :=
  match s with
  | EmptyString => EmptyString
  | String c s' => if Ascii.eqb c sep then EmptyString
                   else String c (split_head sep s')
  end.

(** [x in [a, b, c]] on strings *)
Definition mem_str (x : string) (l : list string) : bool :=
  existsb (String.eqb x) l.

(** [str(n)] for an [int] *)
Definition str_of_int (n : Z) : string := NilZero.string_of_int (Z.to_int n).

(** Truthiness of an optional string ([if custom_config:]): [None] and the
    empty string are false. *)
Definition truthy (o : option string) : bool :=
  match o with
  | None => false
  | Some EmptyString => false
  | Some _ => true
  end.

(** [c in s] for one character. *)
Fixpoint occurs (c : ascii) (s : string) : bool :=
  match s with
  | EmptyString => false
  | String x s' => Ascii.eqb x c || occurs c s'
  end.

(** ASCII white space, the characters [str.strip()] removes and the regular
    expression class [\s] matches. *)
Definition is_space (c : ascii) : bool :=
  let n := nat_of_ascii c in
  ((Nat.leb 9 n) && (Nat.leb n 13)) || ((Nat.leb 28 n) && (Nat.leb n 32)).

Fixpoint lstrip (s : string) : string :=
  match s with
  | EmptyString => EmptyString
  | String c s' => if is_space c then lstrip s' else s
  end.

Fixpoint rstrip (s : string) : string :=
  match s with
  | EmptyString => EmptyString
  | String c s' =>
      match rstrip s' with
      | EmptyString => if is_space c then EmptyString else String c EmptyString
      | r => String c r
      end
  end.

(** [s.strip()] *)
Definition strip (s : string) : string := rstrip (lstrip s).

Definition lower_char (c : ascii) : ascii :=
  let n := nat_of_ascii c in
  if (Nat.leb 65 n) && (Nat.leb n 90) then ascii_of_nat (n + 32) else c.

(** [s.lower()] on ASCII letters. *)
Fixpoint lower (s : string) : string :=
  match s with
  | EmptyString => EmptyString
  | String c s' => String (lower_char c) (lower s')
  end.

(** [s[:n]] *)
Definition take (n : nat) (s : string) : string := String.substring 0 n s.

Definition is_digit (c : ascii) : bool :=
  let n := nat_of_ascii c in (Nat.leb 48 n) && (Nat.leb n 57).

Definition digit_val (c : ascii) : Z := Z.of_nat (nat_of_ascii c - 48).

(** The digits of an integer literal: decimal digits, with single
    underscores allowed between two digits. *)
Fixpoint parse_digits (acc : Z) (after_digit : bool) (s : string) : option Z :=
  match s with
  | EmptyString => if after_digit then Some acc else None
  | String c s' =>
      if is_digit c then parse_digits (10 * acc + digit_val c) true s'
      else if Ascii.eqb c "_" && after_digit then parse_digits acc false s'
      else None
  end.

(** [int(s)]: [None] stands for [ValueError].  White space around the
    literal is ignored, a sign may precede the digits. *)
Definition py_int (s : string) : option Z :=
  match strip s with
  | String "-" d => option_map Z.opp (parse_digits 0 false d)
  | String "+" d => parse_digits 0 false d
  | d => parse_digits 0 false d
  end.

(** [s[-n:]] on a list of lines: the last [n] elements. *)
Definition last_n {A : Type} (n : nat) (l : list A) : list A :=
  skipn (length l - n) l.

(** [s[1:-1]] and [s[1:]] *)
Definition inner (s : string) : string :=
  String.substring 1 (String.length s - 2) s.

Definition behead (s : string) : string :=
  match s with
  | EmptyString => EmptyString
  | String _ r => r
  end.

(** [str(x)] for an optional string: [None] prints as [None]. *)
Definition str_opt (o : option string) : string :=
  match o with
  | None => "None"
  | Some s => s
  end.

Definition not_space (c : ascii) : bool := negb (is_space c).

(** Every character of [s] satisfies [f]. *)
Fixpoint all_chars (f : ascii -> bool) (s : string) : bool :=
  match s with
  | EmptyString => true
  | String c s' => f c && all_chars f s'
  end.

(** The value of a run of decimal digits read after [acc]. *)
Fixpoint uint_val (d : Decimal.uint) (acc : Z) : Z :=
  match d with
  | Decimal.Nil => acc
  | Decimal.D0 l => uint_val l (10 * acc + 0)
  | Decimal.D1 l => uint_val l (10 * acc + 1)
  | Decimal.D2 l => uint_val l (10 * acc + 2)
  | Decimal.D3 l => uint_val l (10 * acc + 3)
  | Decimal.D4 l => uint_val l (10 * acc + 4)
  | Decimal.D5 l => uint_val l (10 * acc + 5)
  | Decimal.D6 l => uint_val l (10 * acc + 6)
  | Decimal.D7 l => uint_val l (10 * acc + 7)
  | Decimal.D8 l => uint_val l (10 * acc + 8)
  | Decimal.D9 l => uint_val l (10 * acc + 9)
  end.

End PyStr.

Import PyStr.

(* ===================================================================== *)
(** * generate_config: the rendered configuration *)
(* ===================================================================== *)

Module Render.

(** [is_local], lines 180-185. *)
Definition is_local (domain : string) : bool :=
  startswith domain "localhost" ||
  startswith domain "127." ||
  startswith domain "0.0.0.0" ||
  (contains ":" domain &&
   mem_str (split_head ":" domain) ["localhost"; "127.0.0.1"; "0.0.0.0"]).

(** [is_http_only], line 219. *)
Definition is_http_only (domain : string) : bool :=
  contains ":80" domain || String.eqb domain ":80".

(** The fixed text of the templates.  Every template is
    [{domain}] [site_open] [{backend_host}] ":" [{backend_port}]
    [proxy_body] (header block) [log_open] [{self.config_dir}] (log tail). *)
Definition site_open : string :=
  " {" ++ nl ++
  "    reverse_proxy ".

Definition proxy_body : string :=
  " {" ++ nl ++
  "        # 支持流式响应（SSE）" ++ nl ++
  "        flush_interval -1" ++ nl ++
  nl ++
  "        # 超时设置" ++ nl ++
  "        transport http {" ++ nl ++
  "            read_timeout 300s" ++ nl ++
  "            write_timeout 300s" ++ nl ++
  "            dial_timeout 30s" ++ nl ++
  "        }" ++ nl ++
  "    }" ++ nl ++
  nl.

Definition header_local : string :=
  "    # 安全头部" ++ nl ++
  "    header {" ++ nl ++
  "        X-Frame-Options " ++ dq ++ "SAMEORIGIN" ++ dq ++ nl ++
  "        X-Content-Type-Options " ++ dq ++ "nosniff" ++ dq ++ nl ++
  "        -Server" ++ nl ++
  "    }" ++ nl.

Definition header_http : string :=
  "    # 安全头部（不包含HSTS）" ++ nl ++
  "    header {" ++ nl ++
  "        X-Frame-Options " ++ dq ++ "DENY" ++ dq ++ nl ++
  "        X-Content-Type-Options " ++ dq ++ "nosniff" ++ dq ++ nl ++
  "        Referrer-Policy " ++ dq ++ "strict-origin-when-cross-origin" ++ dq ++ nl ++
  "        -Server" ++ nl ++
  "    }" ++ nl.

Definition header_https : string :=
  "    # 安全头部" ++ nl ++
  "    header {" ++ nl ++
  "        Strict-Transport-Security " ++ dq ++ "max-age=31536000; includeSubDomains" ++ dq ++ nl ++
  "        X-Frame-Options " ++ dq ++ "DENY" ++ dq ++ nl ++
  "        X-Content-Type-Options " ++ dq ++ "nosniff" ++ dq ++ nl ++
  "        Referrer-Policy " ++ dq ++ "strict-origin-when-cross-origin" ++ dq ++ nl ++
  "        -Server" ++ nl ++
  "    }" ++ nl.

Definition log_open : string :=
  "    " ++ nl ++
  "    # 访问日志" ++ nl ++
  "    log {" ++ nl ++
  "        output file ".

Definition log_tail (roll_keep : string) : string :=
  "/access.log {" ++ nl ++
  "            roll_size 100mb" ++ nl ++
  "            roll_keep " ++ roll_keep ++ nl ++
  "        }" ++ nl ++
  "    }" ++ nl ++
  "}".

(** The three canned variants. *)
Inductive Variant := LocalDev | HttpOnly | Https.

Definition header_block (v : Variant) : string :=
  match v with
  | LocalDev => header_local
  | HttpOnly => header_http
  | Https => header_https
  end.

Definition roll_keep (v : Variant) : string :=
  match v with
  | LocalDev => "3"
  | HttpOnly | Https => "5"
  end.

(** One f-string template, lines 188-215, 223-251 and 254-283. *)
Definition template (v : Variant) (domain backend_host : string)
    (backend_port : Z) (config_dir : string) : string :=
  domain ++ site_open ++ backend_host ++ ":" ++ str_of_int backend_port ++
  proxy_body ++ header_block v ++ log_open ++
  config_dir ++ log_tail (roll_keep v).

(** The nested [if is_local ... else (if is_http_only ... else ...)]. *)
Definition select_variant (domain : string) : Variant :=
  if is_local domain then LocalDev
  else if is_http_only domain then HttpOnly
  else Https.

(** [config_content] as computed by lines 174-283.  [enable_ssl] is a
    parameter of [generate_config] and is kept here although the body never
    reads it. *)
Definition config_content (config_dir : string)
    (domain : string) (backend_port : Z) (backend_host : string)
    (enable_ssl : bool) (custom_config : option string) : string :=
  match custom_config with
  | Some c => if truthy custom_config then c
              else template (select_variant domain) domain backend_host
                            backend_port config_dir
  | None => template (select_variant domain) domain backend_host
                     backend_port config_dir
  end.

(** The header line the production HTTPS variant adds. *)
Definition hsts_line : string :=
  "Strict-Transport-Security " ++ dq ++
  "max-age=31536000; includeSubDomains" ++ dq.

Definition hsts_name : string := "Strict-Transport-Security".


(** The header directives of the production profile without HSTS. *)
Definition http_profile : string :=
  "    header {" ++ nl ++
  "        X-Frame-Options " ++ dq ++ "DENY" ++ dq ++ nl ++
  "        X-Content-Type-Options " ++ dq ++ "nosniff" ++ dq ++ nl ++
  "        Referrer-Policy " ++ dq ++ "strict-origin-when-cross-origin" ++ dq ++ nl ++
  "        -Server" ++ nl ++
  "    }".

(** [log_open] without the words [output file ]. *)
Definition inner_log : string :=
  "    " ++ nl ++
  "    # 访问日志" ++ nl ++
  "    log {" ++ nl ++
  "        ".

(** The directives every template has around the interpolated values. *)
Definition proxy_directive (backend_host : string) (backend_port : Z) : string :=
  "reverse_proxy " ++ backend_host ++ ":" ++ str_of_int backend_port ++ " {".

Definition log_directive (config_dir : string) : string :=
  "output file " ++ config_dir ++ "/access.log {".

End Render.

(* ===================================================================== *)
(** * Reading the configuration back *)
(* ===================================================================== *)

Module Extract.

(** The functions of this module work on the text of the configuration
    file; [None] stands for a file that does not exist.  The class [\s] is
    its ASCII part ([is_space]), as for [strip]; on texts whose only white
    space is ASCII the byte-wise search finds what the search on code points
    finds.  [int] is applied to runs of digits only and is taken without the
    interpreter's cap on the number of digits. *)


(** The longest prefix whose characters satisfy [f], and what follows: a
    greedy [f+] or [f*] of a regular expression. *)
Fixpoint span (f : ascii -> bool) (s : string) : string * string :=
  match s with
  | EmptyString => (EmptyString, EmptyString)
  | String c s' =>
      if f c then (String c (fst (span f s')), snd (span f s'))
      else (EmptyString, s)
  end.

(** The class [[^\s{]]. *)
Definition is_name_char (c : ascii) : bool :=
  negb (is_space c) && negb (Ascii.eqb c "{").

(** [re.findall]: the pattern is tried at every position from left to
    right; after a match that consumed [len] characters the search goes on
    behind it.  [here bol s] tries the pattern at the start of [s], where
    [bol] says whether this position begins a line, and returns the group and
    the length of the match.  None of the patterns below matches the empty
    string. *)
Fixpoint findall (here : bool -> string -> option (string * nat))
    (skip : nat) (bol : bool) (s : string) : list string :=
  match s with
  | EmptyString => []
  | String c s' =>
      match skip with
      | S k => findall here k (Ascii.eqb c "010") s'
      | O =>
          match here bol s with
          | Some (group, len) =>
              group :: findall here (len - 1) (Ascii.eqb c "010") s'
          | None => findall here 0 (Ascii.eqb c "010") s'
          end
      end
  end.

(** [:([0-9]+)\s*{] *)
Definition port_here (bol : bool) (s : string) : option (string * nat) :=
  match s with
  | String ":" r =>
      match fst (span is_digit r) with
      | EmptyString => None
      | digits =>
          match snd (span is_space (snd (span is_digit r))) with
          | String "{" _ =>
              Some (digits,
                    1 + String.length digits
                    + String.length (fst (span is_space (snd (span is_digit r))))
                    + 1)
          | _ => None
          end
      end
  | _ => None
  end.


(** What follows the prefix [p] of [s]. *)
Fixpoint after_prefix (p s : string) : option string :=
  match p with
  | EmptyString => Some s
  | String a p' =>
      match s with
      | EmptyString => None
      | String b s' => if Ascii.eqb a b then after_prefix p' s' else None
      end
  end.

(** [reverse_proxy\s+([^\s{]+)] *)
Definition proxy_here (bol : bool) (s : string) : option (string * nat) :=
  match after_prefix "reverse_proxy" s with
  | None => None
  | Some r =>
      match fst (span is_space r) with
      | EmptyString => None
      | ws =>
          match fst (span is_name_char (snd (span is_space r))) with
          | EmptyString => None
          | name => Some (name, 13 + String.length ws + String.length name)
          end
      end
  end.

(** [[int(port) for port in port_patterns]]; [None] stands for the
    [ValueError] of a failing [int]. *)
Fixpoint ints (l : list string) : option (list Z) :=
  match l with
  | [] => Some []
  | x :: rest =>
      match py_int x, ints rest with
      | Some n, Some ns => Some (n :: ns)
      | _, _ => None
      end
  end.

(** [_extract_listening_ports], lines 996-1026, on the content of the
    configuration file ([None]: there is no file).  [list(set(ports))] is
    the list without repetitions; Python leaves its order open, so only the
    members of the result matter. *)
Definition _extract_listening_ports (config : option string) : list Z :=
  nodup Z.eq_dec
    match config with
    | None => []
    | Some content =>
        match ints (findall port_here 0 true content) with
        | None => [80; 443]%Z
        | Some [] =>
            if contains "localhost" content || contains "127.0.0.1" content
               || contains "0.0.0.0" content
            then [80]%Z
            else [80; 443]%Z
        | Some ports => ports
        end
    end.




(** [_extract_backend_endpoints], lines 1063-1081. *)
Definition _extract_backend_endpoints (config : option string) : list string :=
  match config with
  | None => []
  | Some content => map strip (findall proxy_here 0 true content)
  end.

(** The first [k] characters of [s] are not colons. *)
Fixpoint colon_free (k : nat) (s : string) : bool :=
  match k, s with
  | O, _ => true
  | S _, EmptyString => true
  | S k', String c s' => negb (Ascii.eqb c ":") && colon_free k' s'
  end.


(** An ASCII character other than white space and the opening brace: what
    the class [[^\s{]] matches whether the text is read as bytes or as
    Unicode. *)
Definition is_plain (c : ascii) : bool :=
  is_name_char c && Nat.ltb (nat_of_ascii c) 128.

End Extract.

(* ===================================================================== *)
(** * Health reports *)
(* ===================================================================== *)

Module Health.

(** The values of a check's ['status'] key. *)
Inductive Status := StOk | StWarning | StError | StInfo.

Definition status_eqb (a b : Status) : bool :=
  match a, b with
  | StOk, StOk | StWarning, StWarning | StError, StError | StInfo, StInfo => true
  | _, _ => false
  end.

(** One entry of a ['tests'] list (the keys the checks read). *)
Record Test := {
  endpoint : string;
  success : bool;
  test_message : string
}.

(** One entry of a ['certificates'] list; [valid] is [r.get('valid', False)]. *)
Record Cert := {
  cert_endpoint : string;
  valid : bool
}.

(** The optional structured detail of a check. *)
Inductive Detail :=
| NoDetail
| DPid (p : option Z)
| DPath (path : string)
| DPorts (listening_ports : list Z)
| DTests (tests : list Test)
| DCerts (certificates : list Cert).

(** The dict returned by a [_check_*] method.  Every [return] of these
    methods sets ['status'] and ['required'], so the defaults of
    [check.get('required', True)] and [check.get('status')] are never used. *)
Record CheckResult := {
  status : Status;
  message : string;
  required : bool;
  detail : Detail
}.

(** [health_status['checks']]: a dict, in insertion order. *)
Definition Checks := list (string * CheckResult).

Inductive Overall := Unknown | Healthy | Unhealthy.

(** [all(check.get('status') == 'ok' for check in checks.values()
        if check.get('required', True))], lines 692-696. *)
Definition all_checks_passed (cs : Checks) : bool :=
  forallb (fun c => status_eqb (status (snd c)) StOk)
          (filter (fun c => required (snd c)) cs).

(** Line 698. *)
Definition overall (cs : Checks) : Overall :=
  if all_checks_passed cs then Healthy else Unhealthy.

(** Replace the status of the check called [name], nothing else. *)
Definition with_status (st : Status) (c : CheckResult) : CheckResult :=
  {| status := st; message := message c; required := required c;
     detail := detail c |}.

Fixpoint set_status (name : string) (st : Status) (cs : Checks) : Checks :=
  match cs with
  | [] => []
  | (k, c) :: rest =>
      if String.eqb k name then (k, with_status st c) :: rest
      else (k, c) :: set_status name st rest
  end.

Fixpoint lookup (name : string) (cs : Checks) : option CheckResult :=
  match cs with
  | [] => None
  | (k, c) :: rest => if String.eqb k name then Some c else lookup name rest
  end.

(** [repr] of a list of integers, as an f-string prints it. *)
Definition repr_ints (l : list Z) : string :=
  "[" ++ String.concat ", " (map str_of_int l) ++ "]".

Definition str_of_nat (n : nat) : string := str_of_int (Z.of_nat n).

End Health.

(* ===================================================================== *)
(** * The supervisor: files, processes and the effects of the script *)
(* ===================================================================== *)

Module Supervisor.

(** [self.system == 'windows'] or any other platform. *)
Inductive System := Windows | Posix.

(** The attributes set by [__init__]; paths are kept as their [str()]. *)
Record Self := {
  system : System;
  caddy_path : string;
  config_dir : string;
  config_file_path : string;
  pid_file_path : string;
  log_file_path : string
}.

(** A process of the machine, as the probes see it: its command line (what
    [pgrep -f] and [pkill -f] match against) and whether [tasklist] reports
    its image name as [caddy.exe].  The table lists the other processes of
    the machine; the running script itself is not part of it. *)
Record Proc := {
  pid : Z;
  cmdline : string;
  image_caddy_exe : bool
}.

(** The observable state: process table, the three files of [~/.caddy]
    ([None]: the file does not exist; the log is a list of lines), whether
    configuration and the pid file can be written or removed (the log is
    held open by the logger since [__init__] and can always be appended to),
    and the time stamp the next log record will carry. *)
Record World := {
  procs : list Proc;
  pid_file : option string;
  config_file : option string;
  log_file : option (list string);
  writable : bool;
  clock : string
}.

Definition set_procs (ps : list Proc) (w : World) : World :=
  {| procs := ps; pid_file := pid_file w; config_file := config_file w;
     log_file := log_file w; writable := writable w; clock := clock w |}.

Definition set_pid_file (f : option string) (w : World) : World :=
  {| procs := procs w; pid_file := f; config_file := config_file w;
     log_file := log_file w; writable := writable w; clock := clock w |}.

Definition set_config_file (f : option string) (w : World) : World :=
  {| procs := procs w; pid_file := pid_file w; config_file := f;
     log_file := log_file w; writable := writable w; clock := clock w |}.

Definition set_log_file (f : option (list string)) (w : World) : World :=
  {| procs := procs w; pid_file := pid_file w; config_file := config_file w;
     log_file := f; writable := writable w; clock := clock w |}.

(** Exceptions.  [except ProcessLookupError] catches the first only,
    [except Exception] catches all of them. *)
Inductive Exn :=
| ProcessLookupError
| ValueError (msg : string)
| OSError (msg : string)
| OtherError (msg : string).

(** [str(e)] *)
Definition exn_str (e : Exn) : string :=
  match e with
  | ProcessLookupError => "[Errno 3] No such process"
  | ValueError m | OSError m | OtherError m => m
  end.

(** What the script does to the outside.  Read-only probes ([exists], reads,
    [os.kill(pid, 0)], [pgrep], [tasklist], socket probes) leave no event. *)
Inductive Event :=
| ELog (level msg : string)
| EKill (target : Z) (signal : Z) (delivered : bool)
| ESleep (seconds : Z)
| ERun (cmd : list string)
| EPopen (cmd : list string)
| EWrite (path content : string)
| EUnlink (path : string).

Definition Trace := list Event.

Inductive Outcome (A : Type) :=
| Ret (a : A)
| Raise (e : Exn).
Arguments Ret {A} a.
Arguments Raise {A} e.

(** State, exception and trace monad. *)
Definition M (A : Type) : Type := World -> Outcome A * World * Trace.

Definition ret {A} (a : A) : M A := fun w => (Ret a, w, []).

Definition raise {A} (e : Exn) : M A := fun w => (Raise e, w, []).

Definition bind {A B} (m : M A) (k : A -> M B) : M B :=
  fun w =>
    match m w with
    | (Ret a, w1, t1) =>
        match k a w1 with
        | (o, w2, t2) => (o, w2, (t1 ++ t2)%list)
        end
    | (Raise e, w1, t1) => (Raise e, w1, t1)
    end.

(** [try: m except Exception as e: h e] *)
Definition try_except {A} (m : M A) (h : Exn -> M A) : M A :=
  fun w =>
    match m w with
    | (Ret a, w1, t1) => (Ret a, w1, t1)
    | (Raise e, w1, t1) =>
        match h e w1 with
        | (o, w2, t2) => (o, w2, (t1 ++ t2)%list)
        end
    end.

(** [try: m except ProcessLookupError: pass] *)
Definition except_lookup (m : M unit) : M unit :=
  fun w =>
    match m w with
    | (Raise ProcessLookupError, w1, t1) => (Ret tt, w1, t1)
    | r => r
    end.

Definition get : M World := fun w => (Ret w, w, []).

Definition modify (f : World -> World) : M unit := fun w => (Ret tt, f w, []).

Definition emit (e : Event) : M unit := fun w => (Ret tt, w, [e]).

Declare Scope sup_scope.
Delimit Scope sup_scope with sup.
Notation "x <- m ;; k" := (bind m (fun x => k))
  (at level 61, m at next level, right associativity) : sup_scope.
Notation "m ;; k" := (bind m (fun _ => k))
  (at level 61, right associativity) : sup_scope.
Open Scope sup_scope.

Definition result {A} (r : Outcome A * World * Trace) : Outcome A := fst (fst r).
Definition final {A} (r : Outcome A * World * Trace) : World := snd (fst r).
Definition events {A} (r : Outcome A * World * Trace) : Trace := snd r.

(** [m] never raises. *)
Definition returns {A} (m : M A) : Prop :=
  forall w, exists a w' t, m w = (Ret a, w', t).

(** The number of [time.sleep] calls in a trace. *)
Definition sleeps (t : Trace) : nat :=
  length (filter (fun e => match e with ESleep _ => true | _ => false end) t).

(** ** The process table *)

Definition alive (p : Z) (w : World) : bool :=
  existsb (fun q => Z.eqb (pid q) p) (procs w).

Definition remove_pid (p : Z) (w : World) : World :=
  set_procs (filter (fun q => negb (Z.eqb (pid q) p)) (procs w)) w.

(** Computations that start no process with pid [p]. *)
Definition keeps_dead {A} (p : Z) (m : M A) : Prop :=
  forall w, alive p w = false -> alive p (final (m w)) = false.

(** The command line begins with [caddy\s+(run|start)]. *)
Definition run_here (s : string) : bool :=
  match s with
  | String "c" (String "a" (String "d" (String "d" (String "y" (String c r))))) =>
      is_space c &&
      (String.prefix "run" (lstrip r) || String.prefix "start" (lstrip r))
  | _ => false
  end.

(** [pgrep -f '^.*caddy\s+(run|start)'] selects this command line. *)
Fixpoint pgrep_match (s : string) : bool :=
  run_here s ||
  match s with
  | EmptyString => false
  | String _ s' => pgrep_match s'
  end.

(** [os.kill(pid, sig)].  Signal 0 only probes; signal 9 cannot be caught, the
    process is gone when the call returns; for any other signal the reaction
    of the process is left to the environment.  The script is taken to be
    allowed to signal every process of the table, so the only exception is
    [ProcessLookupError]; a pid is only ever a key of the table (process
    groups are not modelled). *)
Definition os_kill (p : Z) (sig : Z) : M unit :=
  fun w =>
    if alive p w then
      (Ret tt, if Z.eqb sig 9 then remove_pid p w else w,
       if Z.eqb sig 0 then [] else [EKill p sig true])
    else
      (Raise ProcessLookupError, w,
       if Z.eqb sig 0 then [] else [EKill p sig false]).

(** ** Logging: [logging.FileHandler(self.log_file)] appends every record of
    [self.logger] to the same [caddy.log] the managed process writes to,
    formatted as [%(asctime)s - %(levelname)s - %(message)s]. *)
Definition log_record (w : World) (level msg : string) : string :=
  clock w ++ " - " ++ level ++ " - " ++ msg.

Definition log_to (w : World) (level msg : string) : World :=
  set_log_file (option_map (fun l => (l ++ [log_record w level msg])%list)
                           (log_file w)) w.

Definition log (level msg : string) : M unit :=
  fun w => (Ret tt, log_to w level msg, [ELog level msg]).

Definition log_info : string -> M unit := log "INFO".
Definition log_warning : string -> M unit := log "WARNING".
Definition log_error : string -> M unit := log "ERROR".

Fixpoint log_all (level : string) (msgs : list string) : M unit :=
  match msgs with
  | [] => ret tt
  | m :: rest => log level m ;; log_all level rest
  end.

(** ** Files *)

(** [with open(self.pid_file, 'r') as f: pid = int(f.read().strip())] *)
Definition read_pid : M Z :=
  w <- get ;;
  match pid_file w with
  | None => raise (OSError "[Errno 2] No such file or directory")
  | Some content =>
      match py_int content with
      | Some p => ret p
      | None => raise (ValueError ("invalid literal for int() with base 10: "
                                   ++ content))
      end
  end.

(** [with open(path, 'w') as f: f.write(content)] on one of the files. *)
Definition write_file (path : string) (store : option string -> World -> World)
    (content : string) : M unit :=
  w <- get ;;
  if writable w then
    modify (store (Some content)) ;; emit (EWrite path content)
  else raise (OSError "[Errno 13] Permission denied").

(** ** The environment

    What lies outside the script: how the machine evolves while the script
    sleeps, what [subprocess.Popen] and [caddy validate] do, and what the
    socket, HTTP and TLS probes observe.  Every operation below is defined
    for an arbitrary environment. *)

(** The dict built by [_check_port_conflicts]. *)
Record Conflicts := {
  admin_port : option string;
  listening_ports : list (Z * option string)
}.

Record SystemInfo := {
  si_platform : string;
  si_python_version : string;
  si_caddy_path : string;
  si_config_dir : string;
  si_uptime : option string
}.

Record Env := {
  (** the machine after [time.sleep(n)] *)
  env_sleep : Z -> World -> World;
  (** [subprocess.Popen(cmd, ...)]: the pid of the child, or an exception *)
  env_popen : list string -> World -> Outcome Z * World;
  (** [self._check_port_conflicts()] *)
  env_port_conflicts : World -> Outcome Conflicts;
  (** [self.caddy_path.exists()] *)
  env_caddy_installed : World -> bool;
  (** [caddy validate]: [returncode == 0] and [stderr], or an exception *)
  env_validate : World -> Outcome (bool * string);
  (** the list [listening_ports] built by the loop of [_check_ports] *)
  env_listening_ports : World -> Outcome (list Z);
  (** the list [results] built by the loop of
      [_check_frontend_connectivity] *)
  env_frontend_tests : World -> Outcome (list Health.Test);
  (** the list [results] built by the loop of [_check_backend_connectivity] *)
  env_backend_tests : World -> Outcome (list Health.Test);
  (** the list [results] of [_check_ssl_status], one entry per HTTPS
      endpoint of the configuration *)
  env_https_certs : World -> Outcome (list Health.Cert);
  (** [datetime.now().isoformat()] *)
  env_timestamp : World -> string;
  env_platform : string;
  env_python_version : string;
  (** [self._get_uptime()] *)
  env_uptime : World -> option string
}.

Section Operations.

Variable self : Self.
Variable env : Env.

Definition observe {A} (f : World -> Outcome A) : M A :=
  fun w => (f w, w, []).

(** [time.sleep(n)] *)
Definition sleep (n : Z) : M unit :=
  fun w => (Ret tt, env_sleep env n w, [ESleep n]).

(** ** is_running, lines 468-514 *)

Definition _check_pid_file_process (w : World) : bool :=
  match pid_file w with
  | None => false
  | Some content =>
      match py_int content with
      | None => false
      | Some p => alive p w
      end
  end.

Definition _check_any_caddy_process (w : World) : bool :=
  match system self with
  | Windows => existsb image_caddy_exe (procs w)
  | Posix => existsb (fun q => pgrep_match (cmdline q)) (procs w)
  end.

Definition is_running (w : World) : bool :=
  if _check_pid_file_process w then true else _check_any_caddy_process w.

(** [_get_running_caddy_processes], lines 516-547. *)
Definition _get_running_caddy_processes (w : World) : list Proc :=
  match system self with
  | Windows => filter image_caddy_exe (procs w)
  | Posix => filter (fun q => pgrep_match (cmdline q)) (procs w)
  end.

(** [_cleanup_caddy_processes], lines 452-466.  [taskkill /F] ends the
    processes; [pkill] sends SIGTERM, whose effect is the environment's. *)
Definition _cleanup_caddy_processes : M unit :=
  match system self with
  | Windows =>
      w <- get ;;
      if existsb image_caddy_exe (procs w) then
        modify (fun w => set_procs
                  (filter (fun q => negb (image_caddy_exe q)) (procs w)) w) ;;
        emit (ERun ["taskkill"; "/F"; "/IM"; "caddy.exe"])
      else ret tt
  | Posix => emit (ERun ["pkill"; "-f"; "caddy"])
  end.

(** [self.pid_file.unlink(missing_ok=True)] *)
Definition unlink_pid_file : M unit :=
  w <- get ;;
  match pid_file w with
  | None => ret tt
  | Some _ =>
      if writable w then
        modify (set_pid_file None) ;; emit (EUnlink (pid_file_path self))
      else raise (OSError "[Errno 13] Permission denied")
  end.

(** ** undeploy, lines 411-450 *)

Definition terminate (p : Z) : M unit :=
  match system self with
  | Windows =>
      modify (remove_pid p) ;;
      emit (ERun ["taskkill"; "/F"; "/PID"; str_of_int p])
  | Posix =>
      except_lookup (os_kill p 15 ;; sleep 2 ;; os_kill p 9)
  end.

Definition undeploy : M bool :=
  try_except
    (log_info "停止Caddy服务..." ;;
     w <- get ;;
     if negb (is_running w) then
       log_info "Caddy服务未运行" ;;
       ret true
     else
       match pid_file w with
       | Some _ =>
           p <- read_pid ;;
           log_info ("终止进程 PID: " ++ str_of_int p) ;;
           terminate p ;;
           unlink_pid_file
       | None => ret tt
       end ;;
       _cleanup_caddy_processes ;;
       log_info "Caddy服务停止成功" ;;
       ret true)
    (fun e =>
       log_error ("停止服务失败: " ++ exn_str e) ;;
       ret false).

(** ** Log inspection *)

(** The classification inside the loop of [_check_startup_errors],
    lines 625-634, on a stripped and lower-cased line. *)
Definition classify (line : string) : string :=
  if contains "address already in use" line then "端口被占用"
  else if contains "bind" line && contains "address" line then "端口绑定失败"
  else if contains "permission denied" line then "权限不足"
  else if contains "config" line then "配置文件错误"
  else take 100 line.

Fixpoint scan_lines (lines : list string) : option string :=
  match lines with
  | [] => None
  | l :: rest =>
      let line := lower (strip l) in
      if contains "error:" line || contains "failed" line
      then Some (classify line)
      else scan_lines rest
  end.

(** [_check_startup_errors], lines 610-638. *)
Definition _check_startup_errors (w : World) : option string :=
  match log_file w with
  | None => None
  | Some lines =>
      scan_lines (if Nat.leb 10 (length lines) then last_n 10 lines else lines)
  end.

(** [_get_recent_logs(n)], lines 1088-1097. *)
Definition _get_recent_logs (n : nat) (w : World) : list string :=
  match log_file w with
  | None => []
  | Some lines => map strip (last_n n lines)
  end.

(** [_provide_error_solution], lines 640-654. *)
Definition _provide_error_solution (error_info : string) : M unit :=
  if contains "端口被占用" error_info || contains "端口绑定失败" error_info then
    log_all "INFO"
      ["解决方案:";
       "  1. 检查并停止其他Caddy进程: python caddy_deployer.py undeploy";
       "  2. 检查占用端口的进程: ss -tlnp | grep :2019";
       "  3. 修改配置使用不同端口"]
  else if contains "权限不足" error_info then
    log_all "INFO"
      ["解决方案:";
       "  1. 使用sudo运行脚本 (如果需要绑定80/443端口)";
       "  2. 或修改配置使用非特权端口 (>1024)"]
  else if contains "配置文件错误" error_info then
    log_all "INFO"
      ["解决方案:";
       "  1. 验证配置文件: caddy validate --config ~/.caddy/Caddyfile";
       "  2. 检查配置文件语法"]
  else ret tt.

(** ** generate_config, lines 166-294 *)

Definition generate_config (domain : string) (backend_port : Z)
    (backend_host : string) (enable_ssl : bool)
    (custom_config : option string) : M bool :=
  try_except
    (log_info ("生成配置文件: " ++ config_file_path self) ;;
     write_file (config_file_path self) set_config_file
       (Render.config_content (config_dir self) domain backend_port
          backend_host enable_ssl custom_config) ;;
     log_info "配置文件生成成功" ;;
     ret true)
    (fun e =>
       log_error ("配置文件生成失败: " ++ exn_str e) ;;
       ret false).

(** ** validate_config, lines 296-318 *)

Definition validate_config : M bool :=
  try_except
    (w <- get ;;
     if negb (env_caddy_installed env w) then ret false
     else
       match config_file w with
       | None => ret false
       | Some _ =>
           r <- observe (env_validate env) ;;
           if fst r then
             log_info "配置文件验证通过" ;;
             ret true
           else
             log_error ("配置文件验证失败: " ++ snd r) ;;
             ret false
       end)
    (fun _ => ret false).

(** ** deploy, lines 320-409 *)

Definition nonempty {A} (l : list A) : bool :=
  match l with
  | [] => false
  | _ => true
  end.

(** Lines 325-343: the port-conflict report and the stale-instance sweep. *)
Definition conflict_phase : M unit :=
  conflicts <- observe (env_port_conflicts env) ;;
  if truthy (admin_port conflicts) || nonempty (listening_ports conflicts) then
    log_warning "检测到端口冲突:" ;;
    (if truthy (admin_port conflicts) then
       log_warning ("  管理端口 2019 被占用: " ++ str_opt (admin_port conflicts))
     else ret tt) ;;
    log_all "WARNING"
      (map (fun c => "  端口 " ++ str_of_int (fst c) ++ " 被占用: "
                     ++ str_opt (snd c))
           (listening_ports conflicts)) ;;
    w <- get ;;
    if nonempty (_get_running_caddy_processes w) then
      log_info ("检测到 "
                ++ Health.str_of_nat (length (_get_running_caddy_processes w))
                ++ " 个Caddy进程正在运行，将停止它们") ;;
      _cleanup_caddy_processes ;;
      sleep 2
    else
      log_warning "端口被非Caddy进程占用" ;;
      log_info "建议停止占用端口的进程或修改配置" ;;
      log_info "尝试继续部署..."
  else ret tt.

(** Lines 345-349: the implicit stop. *)
Definition stop_if_running : M unit :=
  w <- get ;;
  if is_running w then
    log_warning "Caddy服务已在运行，先停止服务" ;;
    undeploy ;;
    sleep 2
  else ret tt.

Definition launch_cmd : list string :=
  [caddy_path self; "run"; "--config"; config_file_path self;
   "--pidfile"; pid_file_path self].

(** [open(self.log_file, 'a')]: creates the log when it is missing. *)
Definition touch_log (w : World) : World :=
  match log_file w with
  | Some _ => w
  | None => set_log_file (Some []) w
  end.

Definition open_log_append : M unit := modify touch_log.

(** Lines 351-380: start the process detached and save its pid. *)
Definition launch : M Z :=
  log_info ("启动命令: " ++ String.concat " " launch_cmd) ;;
  open_log_append ;;
  emit (EPopen launch_cmd) ;;
  p <- (fun w => (fst (env_popen env launch_cmd w),
                  snd (env_popen env launch_cmd w), [])) ;;
  write_file (pid_file_path self) set_pid_file (str_of_int p) ;;
  ret p.

(** Lines 385-396: the loop [for i in range(max_wait)].  [Some b]: the loop
    returned [b]; [None]: the loop ran out. *)
Fixpoint poll (n : nat) (p : Z) : M (option bool) :=
  match n with
  | O => ret None
  | S k =>
      sleep 1 ;;
      w <- get ;;
      if _check_pid_file_process w then
        log_info ("Caddy服务启动成功 (PID: " ++ str_of_int p ++ ")") ;;
        ret (Some true)
      else
        match _check_startup_errors w with
        | Some error_info =>
            if truthy (Some error_info) then
              log_error ("Caddy启动失败: " ++ error_info) ;;
              _provide_error_solution error_info ;;
              ret (Some false)
            else poll k p
        | None => poll k p
        end
  end.

Definition max_wait : nat := 10.

(** Lines 398-405: the report after the loop ran out. *)
Definition start_timeout : M bool :=
  log_error ("Caddy服务启动超时 (" ++ Health.str_of_nat max_wait ++ "秒)") ;;
  w <- get ;;
  (if nonempty (_get_recent_logs 10 w) then
     log_error "最近的日志:" ;;
     log_all "ERROR" (map (fun l => "  " ++ l)
                          (last_n 5 (_get_recent_logs 10 w)))
   else ret tt) ;;
  ret false.

(** Lines 382-405. *)
Definition wait_for_start (p : Z) : M bool :=
  log_info "等待Caddy启动..." ;;
  r <- poll max_wait p ;;
  match r with
  | Some b => ret b
  | None => start_timeout
  end.

(** Lines 323-380: everything up to the saved pid. *)
Definition startup : M Z :=
  log_info "开始部署Caddy服务..." ;;
  conflict_phase ;;
  stop_if_running ;;
  launch.

Definition deploy : M bool :=
  try_except
    (p <- startup ;;
     wait_for_start p)
    (fun e =>
       log_error ("部署失败: " ++ exn_str e) ;;
       ret false).

(** ** The health checks, lines 706-910 *)

Import Health.

Definition check (st : Status) (msg : string) (req : bool) (d : Detail)
  : CheckResult :=
  {| status := st; message := msg; required := req; detail := d |}.

Definition _check_process : M CheckResult :=
  try_except
    (w <- get ;;
     if negb (is_running w) then
       ret (check StError "Caddy进程未运行" true NoDetail)
     else
       p <- match pid_file w with
            | Some _ => q <- read_pid ;; ret (Some q)
            | None => ret None
            end ;;
       ret (check StOk "Caddy进程正常运行" true (DPid p)))
    (fun e => ret (check StError ("进程检查失败: " ++ exn_str e) true NoDetail)).

Definition _check_config : M CheckResult :=
  try_except
    (w <- get ;;
     match config_file w with
     | None => ret (check StError "配置文件不存在" true NoDetail)
     | Some _ =>
         v <- validate_config ;;
         if v then
           ret (check StOk "配置文件有效" true (DPath (config_file_path self)))
         else
           ret (check StError "配置文件验证失败" true
                      (DPath (config_file_path self)))
     end)
    (fun e => ret (check StError ("配置检查失败: " ++ exn_str e) true NoDetail)).

Definition _check_ports : M CheckResult :=
  try_except
    (ports <- observe (env_listening_ports env) ;;
     if nonempty ports then
       ret (check StOk ("端口监听正常: " ++ repr_ints ports) true (DPorts ports))
     else
       ret (check StError "没有检测到监听端口" true NoDetail))
    (fun e => ret (check StError ("端口检查失败: " ++ exn_str e) true NoDetail)).

Definition ratio (good all : list Test) : string :=
  " (" ++ str_of_nat (length good) ++ "/" ++ str_of_nat (length all) ++ ")".

Definition _check_frontend_connectivity : M CheckResult :=
  try_except
    (results <- observe (env_frontend_tests env) ;;
     if nonempty (filter success results) then
       ret (check StOk ("前端连接正常" ++ ratio (filter success results) results)
                  true (DTests results))
     else
       ret (check StError "前端连接失败" true (DTests results)))
    (fun e =>
       ret (check StError ("前端连通性检查失败: " ++ exn_str e) true NoDetail)).

Definition _check_backend_connectivity : M CheckResult :=
  try_except
    (results <- observe (env_backend_tests env) ;;
     if nonempty (filter success results) then
       ret (check StOk ("后端连接正常" ++ ratio (filter success results) results)
                  true (DTests results))
     else
       ret (check StWarning "部分或全部后端连接失败" false (DTests results)))
    (fun e =>
       ret (check StWarning ("后端连通性检查失败: " ++ exn_str e) false
                  NoDetail)).

Definition _check_ssl_status : M CheckResult :=
  try_except
    (results <- observe (env_https_certs env) ;;
     if negb (nonempty results) then
       ret (check StInfo "未配置HTTPS" false NoDetail)
     else if Nat.eqb (length (filter valid results)) (length results) then
       ret (check StOk "SSL证书状态正常" false (DCerts results))
     else
       ret (check StWarning "部分SSL证书存在问题" false (DCerts results)))
    (fun e => ret (check StInfo ("SSL检查失败: " ++ exn_str e) false NoDetail)).

(** ** health_check, lines 676-704 *)

Record Report := {
  timestamp : string;
  overall_status : Overall;
  checks : Checks;
  logs : option (list string);
  system_info : option SystemInfo
}.

Definition _get_system_info (w : World) : SystemInfo :=
  {| si_platform := env_platform env;
     si_python_version := env_python_version env;
     si_caddy_path := caddy_path self;
     si_config_dir := config_dir self;
     si_uptime := env_uptime env w |}.

Definition health_check (detailed : bool) : M Report :=
  w0 <- get ;;
  c1 <- _check_process ;;
  c2 <- _check_config ;;
  c3 <- _check_ports ;;
  c4 <- _check_frontend_connectivity ;;
  c5 <- _check_backend_connectivity ;;
  c6 <- _check_ssl_status ;;
  w <- get ;;
  let cs := [("process", c1); ("config", c2); ("ports", c3);
             ("frontend", c4); ("backend", c5); ("ssl", c6)] in
  ret {| timestamp := env_timestamp env w0;
         overall_status := overall cs;
         checks := cs;
         logs := if detailed then Some (_get_recent_logs 50 w) else None;
         system_info := if detailed then Some (_get_system_info w) else None |}.

(** ** diagnose, lines 1300-1325 *)

Record Diagnosis := {
  dg_timestamp : string;
  dg_health_check : Report;
  recommendations : list string
}.

(** [checks[name]]: a missing key raises [KeyError]. *)
Definition get_check (name : string) (cs : Checks) : M CheckResult :=
  match lookup name cs with
  | Some c => ret c
  | None => raise (OtherError name)
  end.

Definition diagnose : M Diagnosis :=
  log_info "开始诊断检查..." ;;
  w0 <- get ;;
  rep <- health_check true ;;
  c_process <- get_check "process" (checks rep) ;;
  c_config <- get_check "config" (checks rep) ;;
  c_backend <- get_check "backend" (checks rep) ;;
  c_ssl <- get_check "ssl" (checks rep) ;;
  ret {| dg_timestamp := env_timestamp env w0;
         dg_health_check := rep;
         recommendations :=
           ((if status_eqb (status c_process) StOk then []
             else ["建议检查Caddy服务是否正确启动"])
            ++ (if status_eqb (status c_config) StOk then []
                else ["建议检查配置文件语法和有效性"])
            ++ (if status_eqb (status c_backend) StWarning
                then ["建议检查后端服务是否正常运行"] else [])
            ++ (if status_eqb (status c_ssl) StWarning
                then ["建议检查SSL证书状态和有效期"] else []))%list |}.

(** ** status, lines 656-674 *)

Record StatusInfo := {
  st_running : bool;
  st_caddy_path : string;
  st_config_file : string;
  st_pid_file : string;
  st_log_file : string;
  st_pid : option Z
}.

Definition status (w : World) : StatusInfo :=
  {| st_running := is_running w;
     st_caddy_path := caddy_path self;
     st_config_file := config_file_path self;
     st_pid_file := pid_file_path self;
     st_log_file := log_file_path self;
     st_pid :=
       if is_running w then
         match pid_file w with
         | Some content => py_int content
         | None => None
         end
       else None |}.

End Operations.

End Supervisor.

(* ===================================================================== *)
(** * Concrete machines used in the examples *)
(* ===================================================================== *)

Module Scenario.

Import Supervisor Health.

Definition self0 : Self :=
  {| system := Posix;
     caddy_path := "/usr/bin/caddy";
     config_dir := "/home/u/.caddy";
     config_file_path := "/home/u/.caddy/Caddyfile";
     pid_file_path := "/home/u/.caddy/caddy.pid";
     log_file_path := "/home/u/.caddy/caddy.log" |}.

Definition caddy_proc (p : Z) : Proc :=
  {| pid := p;
     cmdline := "/usr/bin/caddy run --config /home/u/.caddy/Caddyfile";
     image_caddy_exe := false |}.

Definition ok_test : Test :=
  {| endpoint := "http://localhost:80"; success := true;
     test_message := "ok" |}.

(** A quiet machine: nothing changes while the script sleeps, the child
    started by [Popen] gets pid 5000 and stays, every probe succeeds. *)
Definition env_quiet : Env :=
  {| env_sleep := fun _ w => w;
     env_popen := fun _ w =>
       (Ret 5000%Z, set_procs (caddy_proc 5000 :: procs w) w);
     env_port_conflicts := fun _ =>
       Ret {| admin_port := None; listening_ports := [] |};
     env_caddy_installed := fun _ => true;
     env_validate := fun _ => Ret (true, "");
     env_listening_ports := fun _ => Ret [80%Z];
     env_frontend_tests := fun _ => Ret [ok_test];
     env_backend_tests := fun _ => Ret [ok_test];
     env_https_certs := fun _ => Ret [];
     env_timestamp := fun _ => "2024-01-01T00:00:00";
     env_platform := "Linux";
     env_python_version := "3.11";
     env_uptime := fun _ => None |}.

(** Every process exits while the script sleeps. *)
Definition env_exit : Env :=
  {| env_sleep := fun _ w => set_procs [] w;
     env_popen := env_popen env_quiet;
     env_port_conflicts := env_port_conflicts env_quiet;
     env_caddy_installed := env_caddy_installed env_quiet;
     env_validate := env_validate env_quiet;
     env_listening_ports := env_listening_ports env_quiet;
     env_frontend_tests := env_frontend_tests env_quiet;
     env_backend_tests := env_backend_tests env_quiet;
     env_https_certs := env_https_certs env_quiet;
     env_timestamp := env_timestamp env_quiet;
     env_platform := env_platform env_quiet;
     env_python_version := env_python_version env_quiet;
     env_uptime := env_uptime env_quiet |}.

(** The child started by [Popen] dies at once. *)
Definition env_stillborn : Env :=
  {| env_sleep := env_sleep env_quiet;
     env_popen := fun _ w => (Ret 5000%Z, w);
     env_port_conflicts := env_port_conflicts env_quiet;
     env_caddy_installed := env_caddy_installed env_quiet;
     env_validate := env_validate env_quiet;
     env_listening_ports := env_listening_ports env_quiet;
     env_frontend_tests := env_frontend_tests env_quiet;
     env_backend_tests := env_backend_tests env_quiet;
     env_https_certs := env_https_certs env_quiet;
     env_timestamp := env_timestamp env_quiet;
     env_platform := env_platform env_quiet;
     env_python_version := env_python_version env_quiet;
     env_uptime := env_uptime env_quiet |}.


Definition stamp : string := "2024-01-01 00:00:00,000".

(** Nothing runs, no pid file, an empty log. *)
Definition w_stopped : World :=
  {| procs := []; pid_file := None;
     config_file := Some "localhost:80 { }";
     log_file := Some []; writable := true; clock := stamp |}.

(** Caddy runs as process 4242, recorded in the pid file. *)
Definition w_running : World :=
  {| procs := [caddy_proc 4242]; pid_file := Some "4242";
     config_file := Some "localhost:80 { }";
     log_file := Some []; writable := true; clock := stamp |}.

(** Nothing runs; the log ends with a line of the managed process that
    reports the occupied port without the words the scan looks for first. *)
Definition w_port_taken : World :=
  {| procs := []; pid_file := Some "5000";
     config_file := Some "localhost:80 { }";
     log_file := Some ["listen tcp :80: bind: address already in use"];
     writable := true; clock := stamp |}.

(** Nothing runs; the log ends with the error line Caddy prints when the
    port is occupied. *)
Definition w_port_error : World :=
  {| procs := []; pid_file := Some "5000";
     config_file := Some "localhost:80 { }";
     log_file :=
       Some ["Error: loading initial config: listen tcp :2019: bind: address already in use"];
     writable := true; clock := stamp |}.




(** Caddy runs, but the pid file holds no number. *)
Definition w_bad_pid : World :=
  {| procs := [caddy_proc 4242]; pid_file := Some "abc";
     config_file := Some "localhost:80 { }";
     log_file := Some []; writable := true; clock := stamp |}.



(** The quiet machine with another answer of the port probes. *)
Definition with_port_conflicts (f : World -> Outcome Conflicts) : Env :=
  {| env_sleep := env_sleep env_quiet;
     env_popen := env_popen env_quiet;
     env_port_conflicts := f;
     env_caddy_installed := env_caddy_installed env_quiet;
     env_validate := env_validate env_quiet;
     env_listening_ports := env_listening_ports env_quiet;
     env_frontend_tests := env_frontend_tests env_quiet;
     env_backend_tests := env_backend_tests env_quiet;
     env_https_certs := env_https_certs env_quiet;
     env_timestamp := env_timestamp env_quiet;
     env_platform := env_platform env_quiet;
     env_python_version := env_python_version env_quiet;
     env_uptime := env_uptime env_quiet |}.



(** The port probes raise. *)
Definition env_probe_fails : Env :=
  with_port_conflicts (fun _ => Raise (OtherError "port must be 0-65535.")).

End Scenario.

(* ===================================================================== *)
(** * Facts about the string operations *)
(* ===================================================================== *)

Module PyStrFacts.
Lemma append_assoc (a b c : string) : (a ++ b) ++ c = a ++ (b ++ c).
Proof. induction a as [|x a IH]; simpl; [reflexivity | now rewrite IH]. Qed.

Lemma append_nil_r (a : string) : a ++ "" = a.
Proof. induction a as [|x a IH]; simpl; [reflexivity | now rewrite IH]. Qed.

Lemma prefix_cons (x y : ascii) (n s : string) :
  String.prefix (String x n) (String y s) = Ascii.eqb x y && String.prefix n s.
Proof.
  simpl. destruct (ascii_dec x y) as [->|Hne].
  - now rewrite Ascii.eqb_refl.
  - apply Ascii.eqb_neq in Hne. now rewrite Hne.
Qed.

Lemma prefix_nil_r (n : string) :
  String.prefix n "" = match n with EmptyString => true | _ => false end.
Proof. now destruct n. Qed.

Lemma prefix_nil_l (s : string) : String.prefix "" s = true.
Proof. now destruct s. Qed.

Lemma prefix_app (n b : string) : String.prefix n (n ++ b) = true.
Proof.
  induction n as [|x n IH]; [apply prefix_nil_l|].
  cbn [append]. now rewrite prefix_cons, Ascii.eqb_refl, IH.
Qed.

Lemma prefix_elim (n s : string) :
  String.prefix n s = true -> exists b, s = n ++ b.
Proof.
  revert s. induction n as [|x n IH]; intros s H.
  - now exists s.
  - destruct s as [|y s]; [discriminate|].
    rewrite prefix_cons in H. apply andb_true_iff in H as [Hxy Hp].
    apply Ascii.eqb_eq in Hxy as ->.
    destruct (IH _ Hp) as [b ->]. now exists b.
Qed.

Lemma prefix_app_l (n a b : string) :
  String.prefix n a = true -> String.prefix n (a ++ b) = true.
Proof.
  intros H. destruct (prefix_elim _ _ H) as [r ->].
  rewrite append_assoc. apply prefix_app.
Qed.

Lemma contains_unfold (n s : string) :
  contains n s =
  String.prefix n s ||
  match s with EmptyString => false | String _ s' => contains n s' end.
Proof. now destruct s. Qed.

Lemma contains_app_r (n a b : string) :
  contains n b = true -> contains n (a ++ b) = true.
Proof.
  intros H. induction a as [|x a IH]; [exact H|].
  cbn [append]. rewrite contains_unfold, IH. apply orb_true_r.
Qed.

Lemma contains_app_l (n a b : string) :
  contains n a = true -> contains n (a ++ b) = true.
Proof.
  induction a as [|x a IH]; intros H.
  - rewrite contains_unfold in H. rewrite orb_false_r in H.
    destruct n; [|discriminate].
    rewrite contains_unfold, prefix_nil_l. reflexivity.
  - rewrite contains_unfold in H. cbn [append]. rewrite contains_unfold.
    apply orb_true_iff in H as [H|H].
    + pose proof (prefix_app_l n (String x a) b H) as Hp.
      cbn [append] in Hp. now rewrite Hp.
    + rewrite (IH H). apply orb_true_r.
Qed.



(** A character that does not occur in the needle separates the search. *)
Lemma prefix_sep (c : ascii) (n a b : string) :
  occurs c n = false ->
  String.prefix n (a ++ String c b) = String.prefix n a.
Proof.
  revert a. induction n as [|x n IH]; intros a Hc;
    [now rewrite !prefix_nil_l|].
  cbn [occurs] in Hc. apply orb_false_iff in Hc as [Hx Hn].
  destruct a as [|y a]; cbn [append].
  - rewrite prefix_cons, Hx. reflexivity.
  - rewrite !prefix_cons, (IH a Hn). reflexivity.
Qed.

Lemma contains_sep (c : ascii) (n a b : string) :
  occurs c n = false ->
  contains n (a ++ String c b) = contains n a || contains n b.
Proof.
  intros Hc. induction a as [|x a IH].
  - cbn [append]. rewrite (contains_unfold n (String c b)).
    rewrite (prefix_sep c n "" b Hc : String.prefix n (String c b) = _).
    rewrite (contains_unfold n ""). now rewrite orb_false_r.
  - cbn [append]. rewrite (contains_unfold n (String x (a ++ String c b))).
    rewrite (prefix_sep c n (String x a) b Hc : String.prefix n (String x (a ++ String c b)) = _).
    rewrite IH, (contains_unfold n (String x a)).
    now rewrite !orb_assoc.
Qed.

Lemma contains_first (x : ascii) (n s : string) :
  contains (String x n) s = true -> occurs x s = true.
Proof.
  induction s as [|y s IH]; intros H; rewrite contains_unfold in H.
  - discriminate.
  - cbn [occurs]. apply orb_true_iff in H as [H|H].
    + rewrite prefix_cons in H. apply andb_true_iff in H as [H _].
      rewrite Ascii.eqb_sym, H. reflexivity.
    + rewrite (IH H). apply orb_true_r.
Qed.

(** [str(n)] only produces a sign and decimal digits. *)
Lemma occurs_uint (c : ascii) (d : Decimal.uint) :
  occurs c (NilEmpty.string_of_uint d) = true -> occurs c "0123456789" = true.
Proof.
  induction d; cbn [NilEmpty.string_of_uint occurs]; intros H;
    try discriminate;
    apply orb_true_iff in H as [H|H]; auto;
    apply Ascii.eqb_eq in H; subst c; reflexivity.
Qed.

Lemma occurs_nz_uint (c : ascii) (d : Decimal.uint) :
  occurs c (NilZero.string_of_uint d) = true -> occurs c "0123456789" = true.
Proof.
  destruct d; try (apply (occurs_uint c)).
  cbn [NilZero.string_of_uint occurs]. intros H.
  rewrite orb_false_r in H. apply Ascii.eqb_eq in H. subst c. reflexivity.
Qed.

Lemma occurs_str_of_int (c : ascii) (n : Z) :
  occurs c (str_of_int n) = true -> occurs c "-0123456789" = true.
Proof.
  unfold str_of_int, NilZero.string_of_int.
  destruct (Z.to_int n) as [d|d]; intros H.
  - apply occurs_nz_uint in H. cbn [occurs] in *. rewrite H. apply orb_true_r.
  - cbn [occurs] in H. apply orb_true_iff in H as [H|H].
    + apply Ascii.eqb_eq in H. subst c. reflexivity.
    + apply occurs_nz_uint in H. cbn [occurs] in *. rewrite H.
      apply orb_true_r.
Qed.

End PyStrFacts.

(* ===================================================================== *)
(** * Facts about the rendered configuration *)
(* ===================================================================== *)

Module RenderFacts.

Import PyStrFacts Render.

Lemma split_head_prefix (c : ascii) (d : string) :
  String.prefix (split_head c d) d = true.
Proof.
  induction d as [|x d IH]; [reflexivity|].
  cbn [split_head]. destruct (Ascii.eqb x c).
  - apply prefix_nil_l.
  - now rewrite prefix_cons, Ascii.eqb_refl, IH.
Qed.

Lemma prefix_trans (a b d : string) :
  String.prefix a b = true -> String.prefix b d = true ->
  String.prefix a d = true.
Proof.
  intros Hab Hbd. destruct (prefix_elim _ _ Hbd) as [r ->].
  now apply prefix_app_l.
Qed.

(** The fourth disjunct of [is_local] adds nothing: the text before the first
    colon is a prefix of the listen spec. *)
Lemma is_local_prefixes (d : string) :
  is_local d =
  startswith d "localhost" || startswith d "127." || startswith d "0.0.0.0".
Proof.
  unfold is_local.
  destruct (startswith d "localhost" || startswith d "127."
            || startswith d "0.0.0.0") eqn:E; [reflexivity|].
  cbn [orb]. apply andb_false_iff. right.
  apply orb_false_iff in E as [E E3]. apply orb_false_iff in E as [E1 E2].
  unfold startswith in *.
  pose proof (split_head_prefix ":" d) as Hp.
  unfold mem_str. cbn [existsb].
  destruct (String.eqb_spec (split_head ":" d) "localhost") as [H|_].
  { rewrite H in Hp. congruence. }
  destruct (String.eqb_spec (split_head ":" d) "127.0.0.1") as [H|_].
  { rewrite H in Hp.
    assert (String.prefix "127." d = true)
      by (apply (prefix_trans _ "127.0.0.1"); [reflexivity | exact Hp]).
    congruence. }
  destruct (String.eqb_spec (split_head ":" d) "0.0.0.0") as [H|_].
  { rewrite H in Hp. congruence. }
  reflexivity.
Qed.

(** The variant is a function of the listen spec alone, selected by prefix
    and substring tests. *)
Lemma select_variant_cases (d : string) :
  select_variant d =
  if startswith d "localhost" || startswith d "127." || startswith d "0.0.0.0"
  then LocalDev
  else if contains ":80" d then HttpOnly else Https.
Proof.
  unfold select_variant, is_http_only. rewrite is_local_prefixes.
  destruct (_ || _ || _); [reflexivity|].
  destruct (contains ":80" d) eqn:E; [reflexivity|].
  cbn [orb]. destruct (String.eqb_spec d ":80") as [->|_]; [|reflexivity].
  discriminate E.
Qed.

Lemma wrap_app (c1 c2 : ascii) (m r : string) :
  String c1 (m ++ String c2 "") ++ r = String c1 (m ++ String c2 r).
Proof. cbn [append]. now rewrite append_assoc. Qed.

(** The fixed text between two interpolated values begins and ends with a
    character that no header name contains. *)
Lemma site_open_shape (r : string) :
  site_open ++ r = String " " (inner site_open ++ String " " r).
Proof. exact (wrap_app " " " " (inner site_open) r). Qed.

Lemma middle_shape (v : Variant) (r : string) :
  proxy_body ++ header_block v ++ log_open ++ r =
  String " " (inner (proxy_body ++ header_block v ++ log_open) ++ String " " r).
Proof.
  rewrite <- (append_assoc (header_block v) log_open r).
  rewrite <- (append_assoc proxy_body (header_block v ++ log_open) r).
  destruct v.
  - exact (wrap_app " " " " (inner (proxy_body ++ header_local ++ log_open)) r).
  - exact (wrap_app " " " " (inner (proxy_body ++ header_http ++ log_open)) r).
  - exact (wrap_app " " " " (inner (proxy_body ++ header_https ++ log_open)) r).
Qed.

Lemma template_shape (v : Variant) (d h : string) (p : Z) (dir : string) :
  template v d h p dir =
  d ++ String " " (inner site_open ++ String " " (
  h ++ String ":" (
  str_of_int p ++ String " " (
    inner (proxy_body ++ header_block v ++ log_open) ++ String " " (
  dir ++ String "/" (behead (log_tail (roll_keep v)))))))).
Proof.
  unfold template. rewrite site_open_shape, middle_shape.
  destruct v; reflexivity.
Qed.

(** Where a needle without blank, colon and slash can occur in a rendered
    configuration: in one interpolated value or in one piece of fixed text,
    never across a boundary. *)
Lemma contains_template (n : string) (v : Variant) (d h : string) (p : Z)
    (dir : string) :
  occurs " " n = false -> occurs ":" n = false -> occurs "/" n = false ->
  contains n (template v d h p dir) =
  contains n d || (contains n (inner site_open) || (contains n h ||
  (contains n (str_of_int p) ||
  (contains n (inner (proxy_body ++ header_block v ++ log_open)) ||
  (contains n dir || contains n (behead (log_tail (roll_keep v)))))))).
Proof.
  intros Hs Hc Hl. rewrite template_shape.
  rewrite (contains_sep " " n d _ Hs).
  rewrite (contains_sep " " n (inner site_open) _ Hs).
  rewrite (contains_sep ":" n h _ Hc).
  rewrite (contains_sep " " n (str_of_int p) _ Hs).
  rewrite (contains_sep " " n _ _ Hs).
  rewrite (contains_sep "/" n dir _ Hl).
  reflexivity.
Qed.

Lemma no_hsts_in_port (p : Z) : contains hsts_name (str_of_int p) = false.
Proof.
  destruct (contains hsts_name (str_of_int p)) eqn:E; [|reflexivity].
  apply contains_first in E. apply occurs_str_of_int in E. discriminate E.
Qed.

(** A local or HTTP-only template carries the header name only where an
    interpolated value brings it. *)
Lemma hsts_only_from_inputs (v : Variant) (d h : string) (p : Z) (dir : string) :
  v <> Https ->
  contains hsts_name (template v d h p dir) = true ->
  contains hsts_name d = true \/ contains hsts_name h = true \/
  contains hsts_name dir = true.
Proof.
  intros Hv H.
  rewrite contains_template in H by reflexivity.
  rewrite no_hsts_in_port in H.
  assert (Hfix : contains hsts_name (inner site_open) = false /\
                 contains hsts_name
                   (inner (proxy_body ++ header_block v ++ log_open)) = false /\
                 contains hsts_name (behead (log_tail (roll_keep v))) = false).
  { destruct v; try congruence; repeat split; vm_compute; reflexivity. }
  destruct Hfix as (H1 & H2 & H3). rewrite H1, H2, H3 in H.
  cbn [orb] in H. rewrite !orb_false_r in H.
  apply orb_true_iff in H as [H|H]; [now left|].
  apply orb_true_iff in H as [H|H]; [right; now left | right; now right].
Qed.

Lemma contains_header (n : string) (v : Variant) (d h : string) (p : Z)
    (dir : string) :
  contains n (header_block v) = true ->
  contains n (template v d h p dir) = true.
Proof.
  intros H. unfold template.
  do 6 apply contains_app_r. now apply contains_app_l.
Qed.

(** Without an override the content is the template of the selected variant. *)
Lemma config_content_standard (dir d : string) (p : Z) (h : string)
    (ssl : bool) (custom : option string) :
  truthy custom = false ->
  config_content dir d p h ssl custom = template (select_variant d) d h p dir.
Proof.
  unfold config_content. destruct custom as [c|]; [|reflexivity].
  intros ->. reflexivity.
Qed.

(** A public listen spec without the text [:80] gets the HSTS line. *)
Lemma https_variant_has_hsts (dir d : string) (p : Z) (h : string)
    (ssl : bool) (custom : option string) :
  truthy custom = false ->
  is_local d = false -> contains ":80" d = false ->
  contains hsts_line (config_content dir d p h ssl custom) = true.
Proof.
  intros Hc Hl H80. rewrite config_content_standard by exact Hc.
  rewrite select_variant_cases, <- is_local_prefixes, Hl, H80.
  apply contains_header. vm_compute. reflexivity.
Qed.

(** The variants of some listen specs. *)
Example variant_localhost : select_variant "localhost:80" = LocalDev.
Proof. reflexivity. Qed.

Example variant_loopback : select_variant "127.0.0.1:3000" = LocalDev.
Proof. reflexivity. Qed.

Example variant_any_address : select_variant "0.0.0.0:8080" = LocalDev.
Proof. reflexivity. Qed.

Example variant_port_80 : select_variant ":80" = HttpOnly.
Proof. reflexivity. Qed.

Example variant_public_port_80 : select_variant "example.com:80" = HttpOnly.
Proof. reflexivity. Qed.

Example variant_public : select_variant "example.com" = Https.
Proof. reflexivity. Qed.

Example variant_public_443 : select_variant "example.com:443" = Https.
Proof. reflexivity. Qed.

Example variant_public_8080 : select_variant "example.com:8080" = HttpOnly.
Proof. reflexivity. Qed.

(** An empty override counts as no override. *)
Example empty_override_is_ignored :
  config_content "/home/u/.caddy" "example.com" 3000 "127.0.0.1" false (Some "")
  = template Https "example.com" "127.0.0.1" 3000 "/home/u/.caddy".
Proof. reflexivity. Qed.

Example override_is_written_as_is :
  config_content "/home/u/.caddy" "example.com" 3000 "127.0.0.1" false
    (Some ":8080 { respond 200 }")
  = ":8080 { respond 200 }".
Proof. reflexivity. Qed.

(** [localhost:80] with backend port 3000: the proxy directive points at
    [127.0.0.1:3000]. *)
Example local_scenario_proxy :
  contains "reverse_proxy 127.0.0.1:3000 {"
    (config_content "/home/u/.caddy" "localhost:80" 3000 "127.0.0.1" false None)
  = true.
Proof. vm_compute. reflexivity. Qed.

End RenderFacts.

(* ===================================================================== *)
(** * Facts about the aggregation of checks *)
(* ===================================================================== *)

Module HealthFacts.

Import Health.

Lemma status_eqb_eq (a b : Status) : status_eqb a b = true <-> a = b.
Proof. destruct a, b; cbn; split; congruence. Qed.

Lemma all_checks_passed_cons (k : string) (c : CheckResult) (cs : Checks) :
  all_checks_passed ((k, c) :: cs) =
  (if required c then status_eqb (status c) StOk else true)
  && all_checks_passed cs.
Proof.
  unfold all_checks_passed. cbn [filter snd].
  destruct (required c); reflexivity.
Qed.

(** The aggregate fails exactly when a required check is not [ok]. *)
Lemma all_checks_passed_false (cs : Checks) :
  all_checks_passed cs = false <->
  exists k c, In (k, c) cs /\ required c = true /\ status c <> StOk.
Proof.
  induction cs as [|[k c] cs IH].
  - split; [discriminate | intros (k & c & [] & _)].
  - rewrite all_checks_passed_cons, andb_false_iff, IH. split.
    + intros [H|(k' & c' & Hin & Hr & Hs)].
      * exists k, c. destruct (required c) eqn:Er; [|discriminate].
        repeat split; [now left|].
        intros Hok. rewrite Hok in H. discriminate.
      * exists k', c'. repeat split; auto. now right.
    + intros (k' & c' & [Heq|Hin] & Hr & Hs).
      * inversion Heq; subst. left. rewrite Hr.
        destruct (status_eqb (status c') StOk) eqn:E; [|reflexivity].
        apply status_eqb_eq in E. contradiction.
      * right. now exists k', c'.
Qed.

Lemma overall_unhealthy (cs : Checks) :
  overall cs = Unhealthy <->
  exists k c, In (k, c) cs /\ required c = true /\ status c <> StOk.
Proof.
  rewrite <- all_checks_passed_false. unfold overall.
  destruct (all_checks_passed cs); split; congruence.
Qed.

(** A check that is not required does not take part in the aggregate,
    whatever its status becomes. *)
Lemma set_status_not_required (name : string) (st : Status) (cs : Checks)
    (c : CheckResult) :
  lookup name cs = Some c -> required c = false ->
  all_checks_passed (set_status name st cs) = all_checks_passed cs.
Proof.
  induction cs as [|[k c'] cs IH]; [discriminate|].
  cbn [lookup set_status]. destruct (String.eqb k name).
  - intros [= ->] Hr. rewrite !all_checks_passed_cons. cbn [with_status required].
    now rewrite Hr.
  - intros Hl Hr. rewrite !all_checks_passed_cons. now rewrite (IH Hl Hr).
Qed.

End HealthFacts.

(* ===================================================================== *)
(** * Facts about the supervisor *)
(* ===================================================================== *)

Module SupervisorFacts.

Import PyStrFacts Supervisor Health.

Section Facts.

Variable self : Self.
Variable env : Env.

(** ** Running the monad *)

Lemma events_bind_ret {A B} (m : M A) (k : A -> M B) (w : World)
    (a : A) (w1 : World) (t1 : Trace) :
  m w = (Ret a, w1, t1) ->
  events (bind m k w) = (t1 ++ events (k a w1))%list.
Proof.
  intros H. unfold bind. rewrite H.
  destruct (k a w1) as [[o w2] t2]. reflexivity.
Qed.

Lemma events_bind_prefix {A B} (m : M A) (k : A -> M B) (w : World) :
  exists rest, events (bind m k w) = (events (m w) ++ rest)%list.
Proof.
  unfold bind. destruct (m w) as [[[a|e] w1] t1].
  - destruct (k a w1) as [[o w2] t2]. now exists t2.
  - exists []. cbn. now rewrite app_nil_r.
Qed.

Lemma events_try_except_prefix {A} (m : M A) (h : Exn -> M A) (w : World) :
  exists rest, events (try_except m h w) = (events (m w) ++ rest)%list.
Proof.
  unfold try_except. destruct (m w) as [[[a|e] w1] t1].
  - exists []. cbn. now rewrite app_nil_r.
  - destruct (h e w1) as [[o w2] t2]. now exists t2.
Qed.

Lemma returns_ret {A} (a : A) : returns (ret a).
Proof. intros w. now exists a, w, []. Qed.

Lemma returns_try_except {A} (m : M A) (h : Exn -> M A) :
  (forall e, returns (h e)) -> returns (try_except m h).
Proof.
  intros Hh w. unfold try_except.
  destruct (m w) as [[[a|e] w1] t1].
  - now exists a, w1, t1.
  - destruct (Hh e w1) as (a & w2 & t2 & ->). now exists a, w2, (t1 ++ t2)%list.
Qed.




(** ** generate_config *)

Lemma generate_config_run (d : string) (p : Z) (h : string) (ssl : bool)
    (custom : option string) (w : World) :
  generate_config self d p h ssl custom w =
  let w1 := log_to w "INFO" ("生成配置文件: " ++ config_file_path self) in
  let content := Render.config_content (config_dir self) d p h ssl custom in
  if writable w then
    (Ret true,
     log_to (set_config_file (Some content) w1) "INFO" "配置文件生成成功",
     [ELog "INFO" ("生成配置文件: " ++ config_file_path self);
      EWrite (config_file_path self) content;
      ELog "INFO" "配置文件生成成功"])
  else
    (Ret false,
     log_to w1 "ERROR" ("配置文件生成失败: " ++ "[Errno 13] Permission denied"),
     [ELog "INFO" ("生成配置文件: " ++ config_file_path self);
      ELog "ERROR" ("配置文件生成失败: " ++ "[Errno 13] Permission denied")]).
Proof.
  unfold generate_config, try_except, bind, write_file, bind, get, log_info,
    log_error, log, modify, emit, ret, raise.
  cbn. destruct (writable w); reflexivity.
Qed.

(** C10.  Two calls of [generate_config] that differ only in [enable_ssl]
    return the same value, leave the same files (the same written
    configuration) and perform the same effects. *)
Theorem enable_ssl_is_ignored (d : string) (p : Z) (h : string)
    (custom : option string) (ssl1 ssl2 : bool) (w : World) :
  generate_config self d p h ssl1 custom w =
  generate_config self d p h ssl2 custom w.
Proof. reflexivity. Qed.


(** ** The escalation of [undeploy] *)

Lemma terminate_posix (p : Z) (w : World) :
  system self = Posix ->
  alive p w = true ->
  terminate self env p w =
  (Ret tt,
   (if alive p (env_sleep env 2 w) then remove_pid p (env_sleep env 2 w)
    else env_sleep env 2 w),
   [EKill p 15 true; ESleep 2; EKill p 9 (alive p (env_sleep env 2 w))]).
Proof.
  intros Hs Ha. unfold terminate. rewrite Hs.
  unfold except_lookup, bind, os_kill, sleep. rewrite Ha. cbn.
  destruct (alive p (env_sleep env 2 w)); reflexivity.
Qed.

Lemma alive_log (p : Z) (w : World) (level msg : string) :
  alive p (log_to w level msg) = alive p w.
Proof. reflexivity. Qed.

(** C4 (as amended).  On a POSIX platform, when the recorded process is
    alive, [undeploy] sends SIGTERM, sleeps two seconds and then calls
    [os.kill(pid, 9)] without looking at the process again.  The call reaches
    a process exactly when one with that pid is alive after the sleep;
    otherwise it fails with [ProcessLookupError], which is ignored. *)
Theorem undeploy_escalates_unconditionally (w : World) (content : string)
    (p : Z) :
  system self = Posix ->
  pid_file w = Some content ->
  py_int content = Some p ->
  alive p w = true ->
  exists rest,
    events (undeploy self env w) =
    ([ELog "INFO" "停止Caddy服务...";
      ELog "INFO" ("终止进程 PID: " ++ str_of_int p);
      EKill p 15 true;
      ESleep 2;
      EKill p 9
        (alive p (env_sleep env 2
           (log_to (log_to w "INFO" "停止Caddy服务...")
                   "INFO" ("终止进程 PID: " ++ str_of_int p))))] ++ rest)%list.
Proof.
  intros Hs Hf Hp Ha.
  assert (Hr : is_running self w = true).
  { unfold is_running, _check_pid_file_process. now rewrite Hf, Hp, Ha. }
  set (w1 := log_to w "INFO" "停止Caddy服务...").
  set (w2 := log_to w1 "INFO" ("终止进程 PID: " ++ str_of_int p)).
  assert (Hread : read_pid w1 = (Ret p, w1, [])).
  { unfold read_pid, bind, get. change (pid_file w1) with (pid_file w).
    now rewrite Hf, Hp. }
  unfold undeploy.
  destruct (events_try_except_prefix
              (log_info "停止Caddy服务..." ;;
               w0 <- get ;;
               (if negb (is_running self w0)
                then log_info "Caddy服务未运行" ;; ret true
                else
                  match pid_file w0 with
                  | Some _ =>
                      q <- read_pid ;;
                      log_info ("终止进程 PID: " ++ str_of_int q) ;;
                      terminate self env q ;; unlink_pid_file self
                  | None => ret tt
                  end ;;
                  _cleanup_caddy_processes self ;;
                  log_info "Caddy服务停止成功" ;; ret true))
              (fun e => log_error ("停止服务失败: " ++ exn_str e) ;; ret false)
              w) as [r0 ->].
  rewrite (events_bind_ret (log_info "停止Caddy服务...") _ w tt w1
             [ELog "INFO" "停止Caddy服务..."] eq_refl).
  rewrite (events_bind_ret get _ w1 w1 w1 [] eq_refl).
  change (is_running self w1) with (is_running self w). rewrite Hr.
  change (pid_file w1) with (pid_file w). rewrite Hf. cbn [negb].
  destruct (events_bind_prefix
              (q <- read_pid ;;
               log_info ("终止进程 PID: " ++ str_of_int q) ;;
               terminate self env q ;; unlink_pid_file self)
              (fun _ => _cleanup_caddy_processes self ;;
                        log_info "Caddy服务停止成功" ;; ret true)
              w1) as [r1 ->].
  rewrite (events_bind_ret read_pid _ w1 p w1 [] Hread).
  rewrite (events_bind_ret (log_info ("终止进程 PID: " ++ str_of_int p)) _
             w1 tt w2
             [ELog "INFO" ("终止进程 PID: " ++ str_of_int p)] eq_refl).
  destruct (events_bind_prefix (terminate self env p)
              (fun _ => unlink_pid_file self) w2) as [r2 ->].
  rewrite (terminate_posix p w2 Hs Ha).
  exists (r2 ++ r1 ++ r0)%list. cbn [events snd].
  rewrite <- !app_assoc. reflexivity.
Qed.

(** ** The startup polling loop *)


Lemma bind_run {A B} (m : M A) (k : A -> M B) (w : World)
    (a : A) (w1 : World) (t1 : Trace) :
  m w = (Ret a, w1, t1) ->
  bind m k w = (result (k a w1), final (k a w1), (t1 ++ events (k a w1))%list).
Proof.
  intros H. unfold bind. rewrite H. now destruct (k a w1) as [[o w2] t2].
Qed.

(** One iteration of the loop, lines 386-396. *)
Lemma poll_step (n : nat) (p : Z) (w : World) :
  poll env (S n) p w =
  let w1 := env_sleep env 1 w in
  let next :=
    (result (poll env n p w1), final (poll env n p w1),
     ESleep 1 :: events (poll env n p w1)) in
  if _check_pid_file_process w1 then
    (Ret (Some true),
     log_to w1 "INFO" ("Caddy服务启动成功 (PID: " ++ str_of_int p ++ ")"),
     [ESleep 1;
      ELog "INFO" ("Caddy服务启动成功 (PID: " ++ str_of_int p ++ ")")])
  else
    match _check_startup_errors w1 with
    | Some error_info =>
        if truthy (Some error_info) then
          (Ret (Some false),
           final (_provide_error_solution error_info
                    (log_to w1 "ERROR" ("Caddy启动失败: " ++ error_info))),
           ESleep 1 :: ELog "ERROR" ("Caddy启动失败: " ++ error_info)
             :: events (_provide_error_solution error_info
                    (log_to w1 "ERROR" ("Caddy启动失败: " ++ error_info))))
        else next
    | None => next
    end.
Proof.
  cbn zeta.
  change (poll env (S n) p) with
    (sleep env 1 ;;
     w0 <- get ;;
     if _check_pid_file_process w0 then
       log_info ("Caddy服务启动成功 (PID: " ++ str_of_int p ++ ")") ;;
       ret (Some true)
     else
       match _check_startup_errors w0 with
       | Some error_info =>
           if truthy (Some error_info) then
             log_error ("Caddy启动失败: " ++ error_info) ;;
             _provide_error_solution error_info ;;
             ret (Some false)
           else poll env n p
       | None => poll env n p
       end).
  rewrite (bind_run (sleep env 1) _ w tt (env_sleep env 1 w) [ESleep 1] eq_refl).
  rewrite (bind_run get _ (env_sleep env 1 w) (env_sleep env 1 w)
             (env_sleep env 1 w) [] eq_refl).
  set (w1 := env_sleep env 1 w).
  destruct (_check_pid_file_process w1); [reflexivity|].
  destruct (_check_startup_errors w1) as [e|]; [|reflexivity].
  destruct (truthy (Some e)); [|reflexivity].
  unfold bind, log_error, log, ret.
  destruct (_provide_error_solution e _) as [[[[]|x] w2] t2] eqn:E.
  - cbn. now rewrite app_nil_r.
  - exfalso. revert E. unfold _provide_error_solution.
    repeat match goal with |- context [if ?c then _ else _] => destruct c end;
      cbn; discriminate.
Qed.

Lemma events_log_all (level : string) (msgs : list string) (w : World) :
  events (log_all level msgs w) = map (ELog level) msgs /\
  result (log_all level msgs w) = Ret tt.
Proof.
  revert w. induction msgs as [|m msgs IH]; intros w; [now split|].
  cbn [log_all map]. unfold bind, log.
  destruct (log_all level msgs (log_to w level m)) as [[o w1] t1] eqn:E.
  destruct (IH (log_to w level m)) as [He Hr]. rewrite E in He, Hr.
  cbn in He, Hr. subst. now split.
Qed.

Lemma sleeps_app (a b : Trace) :
  sleeps (a ++ b)%list = sleeps a + sleeps b.
Proof. unfold sleeps. now rewrite filter_app, length_app. Qed.

Lemma sleeps_logs (level : string) (msgs : list string) :
  sleeps (map (ELog level) msgs) = 0.
Proof. induction msgs; [reflexivity | exact IHmsgs]. Qed.

Lemma sleeps_provide (e : string) (w : World) :
  sleeps (events (_provide_error_solution e w)) = 0.
Proof.
  unfold _provide_error_solution.
  repeat match goal with |- context [if ?c then _ else _] => destruct c end;
    try reflexivity;
    rewrite (proj1 (events_log_all _ _ _)); apply sleeps_logs.
Qed.

(** The loop sleeps at most once per iteration. *)
Lemma sleeps_poll (n : nat) (p : Z) (w : World) :
  sleeps (events (poll env n p w)) <= n.
Proof.
  revert w. induction n as [|n IH]; intros w; [apply le_n|].
  rewrite poll_step. cbn zeta.
  destruct (_check_pid_file_process _); [cbn; lia|].
  assert (Hnext : sleeps (ESleep 1 :: events (poll env n p (env_sleep env 1 w)))
                  <= S n).
  { change (S (sleeps (events (poll env n p (env_sleep env 1 w)))) <= S n).
    specialize (IH (env_sleep env 1 w)). lia. }
  destruct (_check_startup_errors _) as [e|]; [|exact Hnext].
  destruct (truthy (Some e)); [|exact Hnext].
  cbn [events snd].
  change (S (sleeps (events (_provide_error_solution e
            (log_to (env_sleep env 1 w) "ERROR" ("Caddy启动失败: " ++ e)))))
          <= S n).
  rewrite sleeps_provide. lia.
Qed.

(** The scan stops at the first line that carries [error:] or [failed]. *)
Lemma scan_lines_first (pre post : list string) (l : string) :
  (forall x, In x pre ->
     contains "error:" (lower (strip x)) || contains "failed" (lower (strip x))
     = false) ->
  contains "error:" (lower (strip l)) || contains "failed" (lower (strip l))
    = true ->
  scan_lines (pre ++ l :: post)%list = Some (classify (lower (strip l))).
Proof.
  intros Hpre Hl. induction pre as [|x pre IH]; cbn [app scan_lines].
  - now rewrite Hl.
  - rewrite (Hpre x (or_introl eq_refl)). apply IH.
    intros y Hy. apply Hpre. now right.
Qed.

(** C3 (as amended).  In an iteration of the polling loop in which the
    recorded pid is not alive, if the first of the last ten log lines that
    carries [error:] or [failed] (after [strip] and [lower]) also contains
    [address already in use], then the failure is classified as the
    port-in-use kind and the loop returns failure in this very iteration,
    after its single one-second sleep, whatever number of iterations is
    left. *)
Theorem port_in_use_fails_in_this_iteration (n : nat) (p : Z) (w : World)
    (lines pre post : list string) (l : string) :
  _check_pid_file_process (env_sleep env 1 w) = false ->
  log_file (env_sleep env 1 w) = Some lines ->
  (if Nat.leb 10 (length lines) then last_n 10 lines else lines)
    = (pre ++ l :: post)%list ->
  (forall x, In x pre ->
     contains "error:" (lower (strip x)) || contains "failed" (lower (strip x))
     = false) ->
  contains "error:" (lower (strip l)) || contains "failed" (lower (strip l))
    = true ->
  contains "address already in use" (lower (strip l)) = true ->
  _check_startup_errors (env_sleep env 1 w) = Some "端口被占用" /\
  result (poll env (S n) p w) = Ret (Some false) /\
  events (poll env (S n) p w) =
    [ESleep 1;
     ELog "ERROR" "Caddy启动失败: 端口被占用";
     ELog "INFO" "解决方案:";
     ELog "INFO" "  1. 检查并停止其他Caddy进程: python caddy_deployer.py undeploy";
     ELog "INFO" "  2. 检查占用端口的进程: ss -tlnp | grep :2019";
     ELog "INFO" "  3. 修改配置使用不同端口"].
Proof.
  intros Hpid Hlog Htail Hpre Hl Haddr.
  assert (Herr : _check_startup_errors (env_sleep env 1 w) = Some "端口被占用").
  { unfold _check_startup_errors. rewrite Hlog, Htail.
    rewrite (scan_lines_first pre post l Hpre Hl).
    unfold classify. now rewrite Haddr. }
  split; [exact Herr|].
  rewrite poll_step. cbn zeta. rewrite Hpid, Herr.
  split; reflexivity.
Qed.

Lemma poll_returns (n : nat) (p : Z) (w : World) :
  exists r, result (poll env n p w) = Ret r.
Proof.
  revert w. induction n as [|n IH]; intros w; [now exists None|].
  rewrite poll_step. cbn zeta.
  destruct (_check_pid_file_process _); [now eexists|].
  destruct (_check_startup_errors _) as [e|]; [|apply IH].
  destruct (truthy (Some e)); [now eexists | apply IH].
Qed.

(** While neither condition resolves, the loop only sleeps. *)
Lemma poll_none (n : nat) (p : Z) (w : World) :
  (forall k, k < n ->
     _check_pid_file_process (Nat.iter (S k) (env_sleep env 1) w) = false /\
     _check_startup_errors (Nat.iter (S k) (env_sleep env 1) w) = None) ->
  poll env n p w =
  (Ret None, Nat.iter n (env_sleep env 1) w, repeat (ESleep 1) n).
Proof.
  revert w. induction n as [|n IH]; intros w H; [reflexivity|].
  rewrite poll_step. cbn zeta.
  destruct (H 0 ltac:(lia)) as [Hp He]. cbn [Nat.iter nat_rect] in Hp, He.
  rewrite Hp, He, IH.
  - cbn [result final events fst snd repeat]. now rewrite <- Nat.iter_succ_r.
  - intros k Hk. rewrite <- Nat.iter_succ_r. apply H. lia.
Qed.

(** Lines 398-405. *)
Lemma start_timeout_run (w : World) :
  result (start_timeout w) = Ret false /\
  events (start_timeout w) =
    ELog "ERROR" ("Caddy服务启动超时 (" ++ str_of_nat max_wait ++ "秒)")
    :: (if nonempty (_get_recent_logs 10
               (log_to w "ERROR"
                  ("Caddy服务启动超时 (" ++ str_of_nat max_wait ++ "秒)")))
        then ELog "ERROR" "最近的日志:"
             :: map (fun l => ELog "ERROR" ("  " ++ l))
                  (last_n 5 (_get_recent_logs 10
                     (log_to w "ERROR"
                        ("Caddy服务启动超时 (" ++ str_of_nat max_wait ++ "秒)"))))
        else []).
Proof.
  unfold start_timeout.
  set (msg := "Caddy服务启动超时 (" ++ str_of_nat max_wait ++ "秒)").
  rewrite (bind_run (log_error msg) _ w tt (log_to w "ERROR" msg)
             [ELog "ERROR" msg] eq_refl).
  rewrite (bind_run get _ (log_to w "ERROR" msg) (log_to w "ERROR" msg)
             (log_to w "ERROR" msg) [] eq_refl).
  set (w1 := log_to w "ERROR" msg).
  destruct (nonempty (_get_recent_logs 10 w1)).
  - set (shown := map (fun l => "  " ++ l) (last_n 5 (_get_recent_logs 10 w1))).
    assert (Hin : exists w2,
               (log_error "最近的日志:" ;; log_all "ERROR" shown) w1 =
               (Ret tt, w2,
                ELog "ERROR" "最近的日志:" :: map (ELog "ERROR") shown)).
    { rewrite (bind_run (log_error "最近的日志:") _ w1 tt
                 (log_to w1 "ERROR" "最近的日志:")
                 [ELog "ERROR" "最近的日志:"] eq_refl).
      destruct (events_log_all "ERROR" shown (log_to w1 "ERROR" "最近的日志:"))
        as [He Hr].
      rewrite He, Hr. eexists. reflexivity. }
    destruct Hin as [w2 Hin].
    rewrite (bind_run _ _ w1 tt w2 _ Hin).
    cbn [result final events fst snd ret app].
    unfold shown. rewrite map_map, app_nil_r. now split.
  - now split.
Qed.

Lemma wait_for_start_run (p : Z) (w : World) :
  let w0 := log_to w "INFO" "等待Caddy启动..." in
  let r := poll env max_wait p w0 in
  wait_for_start env p w =
  match result r with
  | Ret (Some b) => (Ret b, final r, ELog "INFO" "等待Caddy启动..." :: events r)
  | Ret None =>
      (result (start_timeout (final r)), final (start_timeout (final r)),
       ELog "INFO" "等待Caddy启动..."
         :: (events r ++ events (start_timeout (final r)))%list)
  | Raise e => (Raise e, final r, ELog "INFO" "等待Caddy启动..." :: events r)
  end.
Proof.
  cbn zeta. unfold wait_for_start.
  rewrite (bind_run (log_info "等待Caddy启动...") _ w tt
             (log_to w "INFO" "等待Caddy启动...")
             [ELog "INFO" "等待Caddy启动..."] eq_refl).
  set (w0 := log_to w "INFO" "等待Caddy启动...").
  destruct (poll env max_wait p w0) as [[[[b|]|e] w1] t1] eqn:E;
    cbn [result final events fst snd].
  - rewrite (bind_run _ _ w0 _ w1 t1 E).
    cbn [result final events fst snd ret app]. now rewrite app_nil_r.
  - rewrite (bind_run _ _ w0 _ w1 t1 E). reflexivity.
  - unfold bind. rewrite E. reflexivity.
Qed.

Lemma wait_for_start_returns (p : Z) (w : World) :
  exists b, result (wait_for_start env p w) = Ret b.
Proof.
  rewrite wait_for_start_run. cbn zeta.
  destruct (poll_returns max_wait p (log_to w "INFO" "等待Caddy启动..."))
    as [[b|] ->].
  - now exists b.
  - exists false. apply (proj1 (start_timeout_run _)).
Qed.

(** [deploy] returns what the wait for the started process returns. *)
Lemma deploy_run (w : World) (p : Z) (wl : World) (tl : Trace) :
  startup self env w = (Ret p, wl, tl) ->
  deploy self env w =
  (result (wait_for_start env p wl), final (wait_for_start env p wl),
   (tl ++ events (wait_for_start env p wl))%list).
Proof.
  intros H. unfold deploy, try_except.
  rewrite (bind_run (startup self env) _ w p wl tl H).
  destruct (wait_for_start_returns p wl) as [b Hb]. rewrite Hb. reflexivity.
Qed.

(** C8.  The polling loop of [deploy] sleeps one second at most ten times.
    If, after the process has been launched, the recorded pid is not alive
    and the log shows no startup error at any of the ten checks, [deploy]
    returns failure after exactly ten sleeps, logs the timeout and then the
    last five of the last ten log lines. *)
Theorem startup_poll_bounded_and_times_out (w : World) (p : Z) (wl : World)
    (tl : Trace) :
  startup self env w = (Ret p, wl, tl) ->
  sleeps (events (poll env max_wait p (log_to wl "INFO" "等待Caddy启动...")))
    <= 10 /\
  ((forall k, k < 10 ->
      _check_pid_file_process
        (Nat.iter (S k) (env_sleep env 1) (log_to wl "INFO" "等待Caddy启动..."))
        = false /\
      _check_startup_errors
        (Nat.iter (S k) (env_sleep env 1) (log_to wl "INFO" "等待Caddy启动..."))
        = None) ->
   let w10 :=
     log_to (Nat.iter 10 (env_sleep env 1) (log_to wl "INFO" "等待Caddy启动..."))
       "ERROR" "Caddy服务启动超时 (10秒)" in
   result (deploy self env w) = Ret false /\
   events (deploy self env w) =
     (tl ++ ELog "INFO" "等待Caddy启动..." :: repeat (ESleep 1) 10
         ++ ELog "ERROR" "Caddy服务启动超时 (10秒)"
         :: (if nonempty (_get_recent_logs 10 w10)
             then ELog "ERROR" "最近的日志:"
                  :: map (fun l => ELog "ERROR" ("  " ++ l))
                       (last_n 5 (_get_recent_logs 10 w10))
             else []))%list).
Proof.
  intros Hs. split; [apply sleeps_poll|].
  intros Hquiet w10.
  rewrite (deploy_run w p wl tl Hs), wait_for_start_run. cbn zeta.
  rewrite (poll_none max_wait p _ Hquiet).
  cbn [result final events fst snd].
  destruct (start_timeout_run
              (Nat.iter max_wait (env_sleep env 1)
                 (log_to wl "INFO" "等待Caddy启动..."))) as [Hr He].
  split; [exact Hr|]. rewrite He. reflexivity.
Qed.

(** ** deploy on a running service *)

Lemma alive_remove_pid (p : Z) (w : World) : alive p (remove_pid p w) = false.
Proof.
  unfold alive, remove_pid. cbn [procs set_procs].
  induction (procs w) as [|q l IH]; [reflexivity|].
  cbn [filter]. destruct (Z.eqb (pid q) p) eqn:E; cbn [negb existsb].
  - exact IH.
  - now rewrite E, IH.
Qed.


(** After [terminate p] no process has pid [p], however it ends. *)
Lemma terminate_kills (p : Z) (w : World) :
  exists wt tt',
    terminate self env p w = (Ret tt, wt, tt') /\ alive p wt = false.
Proof.
  unfold terminate. destruct (system self).
  - do 2 eexists. split; [reflexivity|]. apply alive_remove_pid.
  - unfold except_lookup, bind, os_kill, sleep.
    destruct (alive p w) eqn:Ea; cbn.
    + destruct (alive p (env_sleep env 2 w)) eqn:Eb; cbn;
        do 2 eexists; (split; [reflexivity|]);
        [apply alive_remove_pid | exact Eb].
    + do 2 eexists. split; [reflexivity | exact Ea].
Qed.




Lemma keeps_dead_try_except {A} (p : Z) (m : M A) (h : Exn -> M A) :
  keeps_dead p m -> (forall e, keeps_dead p (h e)) ->
  keeps_dead p (try_except m h).
Proof.
  intros Hm Hh w H. specialize (Hm w H). unfold try_except.
  destruct (m w) as [[[a|e] w1] t1]; cbn in Hm.
  - exact Hm.
  - specialize (Hh e w1 Hm). now destruct (h e w1) as [[o w2] t2].
Qed.








(** Lines 351-380. *)
Lemma launch_run (w : World) :
  let msg := "启动命令: " ++ String.concat " " (launch_cmd self) in
  let wl := touch_log (log_to w "INFO" msg) in
  launch self env w =
  match env_popen env (launch_cmd self) wl with
  | (Ret q, wq) =>
      if writable wq then
        (Ret q, set_pid_file (Some (str_of_int q)) wq,
         [ELog "INFO" msg; EPopen (launch_cmd self);
          EWrite (pid_file_path self) (str_of_int q)])
      else
        (Raise (OSError "[Errno 13] Permission denied"), wq,
         [ELog "INFO" msg; EPopen (launch_cmd self)])
  | (Raise e, wq) =>
      (Raise e, wq, [ELog "INFO" msg; EPopen (launch_cmd self)])
  end.
Proof.
  cbn zeta. unfold launch, open_log_append, write_file.
  unfold bind, log_info, log, modify, emit, get, ret, raise.
  destruct (env_popen env (launch_cmd self) _) as [[q|e] wq]; cbn.
  - destruct (writable wq); reflexivity.
  - reflexivity.
Qed.




(** ** The health checks never raise *)

Lemma returns_check_process : returns (_check_process self).
Proof. apply returns_try_except. intros e. apply returns_ret. Qed.

Lemma returns_check_config : returns (_check_config self env).
Proof. apply returns_try_except. intros e. apply returns_ret. Qed.

Lemma returns_check_ports : returns (_check_ports env).
Proof. apply returns_try_except. intros e. apply returns_ret. Qed.

Lemma returns_check_frontend : returns (_check_frontend_connectivity env).
Proof. apply returns_try_except. intros e. apply returns_ret. Qed.

Lemma returns_check_backend : returns (_check_backend_connectivity env).
Proof. apply returns_try_except. intros e. apply returns_ret. Qed.

Lemma returns_check_ssl : returns (_check_ssl_status env).
Proof. apply returns_try_except. intros e. apply returns_ret. Qed.

(** [health_check] runs the six checks in order and returns their results
    under the six names, with the aggregate of exactly these results. *)
Lemma health_check_run (detailed : bool) (w : World) :
  exists rep w' t,
    health_check self env detailed w = (Ret rep, w', t) /\
    map fst (checks rep) =
      ["process"; "config"; "ports"; "frontend"; "backend"; "ssl"] /\
    overall_status rep = overall (checks rep).
Proof.
  unfold health_check, bind, get.
  destruct (returns_check_process w) as (c1 & w1 & t1 & ->).
  destruct (returns_check_config w1) as (c2 & w2 & t2 & ->).
  destruct (returns_check_ports w2) as (c3 & w3 & t3 & ->).
  destruct (returns_check_frontend w3) as (c4 & w4 & t4 & ->).
  destruct (returns_check_backend w4) as (c5 & w5 & t5 & ->).
  destruct (returns_check_ssl w5) as (c6 & w6 & t6 & ->).
  cbn. do 3 eexists. split; [reflexivity|]. split; reflexivity.
Qed.

(** C1.  In the report of every health-check run, the overall status is
    [unhealthy] exactly when some check with [required = true] has a status
    other than [ok]; and setting the status of a check with
    [required = false] to [error] or [warning], nothing else being changed,
    leaves a healthy aggregate healthy. *)
Theorem overall_unhealthy_iff_required_check_fails (detailed : bool)
    (w : World) (rep : Report) :
  result (health_check self env detailed w) = Ret rep ->
  (overall_status rep = Unhealthy <->
   exists name c,
     In (name, c) (checks rep) /\ required c = true /\ status c <> StOk) /\
  (forall name c st,
     lookup name (checks rep) = Some c ->
     required c = false ->
     st = StError \/ st = StWarning ->
     overall_status rep = Healthy ->
     overall (set_status name st (checks rep)) = Healthy).
Proof.
  intros H.
  destruct (health_check_run detailed w) as (rep' & w' & t & Hrun & _ & Ho).
  rewrite Hrun in H. cbn in H. injection H as <-.
  rewrite Ho. split.
  - apply HealthFacts.overall_unhealthy.
  - intros name c st Hl Hr _. unfold overall.
    now rewrite (HealthFacts.set_status_not_required name st _ c Hl Hr).
Qed.

(** ** What becomes of an exception inside a probe *)








End Facts.

Lemma overall_unhealthy_iff_required_check_fails_witness :
  exists rep,
    result (health_check Scenario.self0 Scenario.env_quiet false
              Scenario.w_running) = Ret rep /\
    overall_status rep = Healthy /\
    overall (set_status "ssl" StError (checks rep)) = Healthy.
Proof.
  eexists. split; [vm_compute; reflexivity|].
  split; [vm_compute; reflexivity|].
  eapply (proj2 (overall_unhealthy_iff_required_check_fails Scenario.self0
                   Scenario.env_quiet false Scenario.w_running _
                   ltac:(vm_compute; reflexivity))
            "ssl" _ StError ltac:(vm_compute; reflexivity) eq_refl
            (or_introl eq_refl) ltac:(vm_compute; reflexivity)).
Defined.


(** C3, as the claim states it, fails: the last log line says
    [address already in use] but carries neither [error:] nor [failed]; the
    scan reports nothing and [deploy] waits out all ten iterations. *)
Lemma port_in_use_line_without_marker_is_missed :
  log_file Scenario.w_port_taken
    = Some ["listen tcp :80: bind: address already in use"] /\
  contains "address already in use"
    "listen tcp :80: bind: address already in use" = true /\
  _check_startup_errors Scenario.w_port_taken = None /\
  result (deploy Scenario.self0 Scenario.env_stillborn Scenario.w_port_taken)
    = Ret false /\
  sleeps (events (deploy Scenario.self0 Scenario.env_stillborn
                    Scenario.w_port_taken)) = 10 /\
  In (ELog "ERROR" "Caddy服务启动超时 (10秒)")
     (events (deploy Scenario.self0 Scenario.env_stillborn
                Scenario.w_port_taken)).
Proof.
  split; [reflexivity|]. split; [reflexivity|]. split; [reflexivity|].
  split; [vm_compute; reflexivity|]. split; [vm_compute; reflexivity|].
  vm_compute. tauto.
Qed.

Lemma port_in_use_fails_in_this_iteration_witness :
  result (poll Scenario.env_quiet 10 5000 Scenario.w_port_error)
    = Ret (Some false).
Proof.
  exact (proj1 (proj2
    (port_in_use_fails_in_this_iteration Scenario.env_quiet 9 5000
       Scenario.w_port_error
       ["Error: loading initial config: listen tcp :2019: bind: address already in use"]
       [] []
       "Error: loading initial config: listen tcp :2019: bind: address already in use"
       eq_refl eq_refl eq_refl (fun x H => match H with end)
       eq_refl eq_refl))).
Defined.

Lemma startup_poll_bounded_and_times_out_witness :
  result (deploy Scenario.self0 Scenario.env_stillborn Scenario.w_stopped)
    = Ret false.
Proof.
  refine (proj1 (proj2
    (startup_poll_bounded_and_times_out Scenario.self0 Scenario.env_stillborn
       Scenario.w_stopped 5000
       (final (startup Scenario.self0 Scenario.env_stillborn Scenario.w_stopped))
       (events (startup Scenario.self0 Scenario.env_stillborn
                  Scenario.w_stopped))
       _) _)).
  - vm_compute. reflexivity.
  - intros k Hk.
    do 10 (destruct k as [|k]; [split; vm_compute; reflexivity|]).
    lia.
Defined.




(** C2 at a public listen spec on port 8080: the text [:80] occurs in
    [example.com:8080], so the HTTP-only template is selected and the
    written configuration carries no Strict-Transport-Security header,
    although the listen spec is neither local nor on port 80. *)
Theorem public_port_8080_rendered_without_hsts :
  Render.is_local "example.com:8080" = false /\
  Render.is_http_only "example.com:8080" = true /\
  Render.select_variant "example.com:8080" = Render.HttpOnly /\
  exists content,
    config_file (final (generate_config Scenario.self0
                          "example.com:8080" 3000 "127.0.0.1" false None
                          Scenario.w_stopped)) = Some content /\
    contains Render.hsts_name content = false.
Proof.
  repeat split; try reflexivity.
  eexists. split; vm_compute; reflexivity.
Qed.



(** C4, as the claim states it, fails: the recorded process exits during the
    two seconds of grace, and [os.kill(4242, 9)] is called all the same. *)
Lemma sigkill_sent_after_exit :
  alive 4242 (env_sleep Scenario.env_exit 2 Scenario.w_running) = false /\
  In (EKill 4242 9 false)
     (events (undeploy Scenario.self0 Scenario.env_exit Scenario.w_running)).
Proof. split; [reflexivity | vm_compute; tauto]. Qed.

Lemma undeploy_escalates_unconditionally_witness :
  exists rest,
    events (undeploy Scenario.self0 Scenario.env_exit Scenario.w_running) =
    ([ELog "INFO" "停止Caddy服务...";
      ELog "INFO" ("终止进程 PID: " ++ str_of_int 4242);
      EKill 4242 15 true;
      ESleep 2;
      EKill 4242 9
        (alive 4242 (env_sleep Scenario.env_exit 2
           (log_to (log_to Scenario.w_running "INFO" "停止Caddy服务...")
                   "INFO" ("终止进程 PID: " ++ str_of_int 4242))))] ++ rest)%list.
Proof.
  exact (undeploy_escalates_unconditionally Scenario.self0 Scenario.env_exit
           Scenario.w_running "4242" 4242 eq_refl eq_refl eq_refl eq_refl).
Defined.

(** ** Runs on the concrete machines *)

Example py_int_examples :
  py_int " 4242 " = Some 4242%Z /\ py_int "-7" = Some (-7)%Z /\
  py_int "1_000" = Some 1000%Z /\ py_int "" = None /\ py_int "12a" = None.
Proof. repeat split. Qed.

Example scan_port_error :
  _check_startup_errors Scenario.w_port_error = Some "端口被占用".
Proof. reflexivity. Qed.

Example scan_empty_log : _check_startup_errors Scenario.w_stopped = None.
Proof. reflexivity. Qed.

(** A first deploy on a quiet machine succeeds at the first check. *)
Example deploy_quiet :
  result (deploy Scenario.self0 Scenario.env_quiet Scenario.w_stopped)
    = Ret true /\
  sleeps (events (deploy Scenario.self0 Scenario.env_quiet Scenario.w_stopped))
    = 1 /\
  pid_file (final (deploy Scenario.self0 Scenario.env_quiet Scenario.w_stopped))
    = Some "5000".
Proof. repeat split; vm_compute; reflexivity. Qed.

(** A deploy on a running machine stops process 4242 and starts 5000. *)
Example deploy_running :
  result (deploy Scenario.self0 Scenario.env_quiet Scenario.w_running)
    = Ret true /\
  map pid (procs (final (deploy Scenario.self0 Scenario.env_quiet
                           Scenario.w_running))) = [5000%Z] /\
  pid_file (final (deploy Scenario.self0 Scenario.env_quiet Scenario.w_running))
    = Some "5000".
Proof. repeat split; vm_compute; reflexivity. Qed.

(** [undeploy] on the running machine. *)
Example undeploy_running :
  undeploy Scenario.self0 Scenario.env_quiet Scenario.w_running =
  (Ret true,
   final (undeploy Scenario.self0 Scenario.env_quiet Scenario.w_running),
   [ELog "INFO" "停止Caddy服务...";
    ELog "INFO" "终止进程 PID: 4242";
    EKill 4242 15 true; ESleep 2; EKill 4242 9 true;
    EUnlink "/home/u/.caddy/caddy.pid";
    ERun ["pkill"; "-f"; "caddy"];
    ELog "INFO" "Caddy服务停止成功"]).
Proof. vm_compute. reflexivity. Qed.

(** The report of a running and of a stopped machine. *)
Example health_running :
  exists rep,
    result (health_check Scenario.self0 Scenario.env_quiet false
              Scenario.w_running) = Ret rep /\
    overall_status rep = Healthy /\
    map (fun c => status (snd c)) (checks rep)
      = [StOk; StOk; StOk; StOk; StOk; StInfo].
Proof. eexists. repeat split; vm_compute; reflexivity. Qed.

Example health_stopped :
  exists rep,
    result (health_check Scenario.self0 Scenario.env_quiet false
              Scenario.w_stopped) = Ret rep /\
    overall_status rep = Unhealthy /\
    map (fun c => status (snd c)) (checks rep)
      = [StError; StOk; StOk; StOk; StOk; StInfo].
Proof. eexists. repeat split; vm_compute; reflexivity. Qed.

End SupervisorFacts.

(* ===================================================================== *)
(** * [int(str(n))] and the pid file *)
(* ===================================================================== *)

Module IntFacts.

Import PyStrFacts Supervisor.

Lemma lstrip_id (s : string) : all_chars not_space s = true -> lstrip s = s.
Proof.
  destruct s as [|c r]; [reflexivity|]. cbn [all_chars lstrip].
  unfold not_space. intros H. apply andb_true_iff in H as [H _].
  apply negb_true_iff in H. now rewrite H.
Qed.

Lemma rstrip_id (s : string) : all_chars not_space s = true -> rstrip s = s.
Proof.
  induction s as [|c r IH]; [reflexivity|]. cbn [all_chars rstrip].
  intros H. apply andb_true_iff in H as [Hc Hr]. rewrite (IH Hr).
  unfold not_space in Hc. apply negb_true_iff in Hc.
  destruct r; [now rewrite Hc | reflexivity].
Qed.

Lemma strip_id (s : string) : all_chars not_space s = true -> strip s = s.
Proof.
  intros H. unfold strip. rewrite (lstrip_id s H). now apply rstrip_id.
Qed.

Lemma digits_not_space (d : Decimal.uint) :
  all_chars not_space (NilEmpty.string_of_uint d) = true.
Proof. induction d; cbn [NilEmpty.string_of_uint all_chars]; auto. Qed.

Lemma nz_digits_not_space (d : Decimal.uint) :
  all_chars not_space (NilZero.string_of_uint d) = true.
Proof. destruct d; try apply (digits_not_space _); reflexivity. Qed.

(** Reading back the digits of [d] after [acc]. *)
Lemma parse_digits_uint (d : Decimal.uint) (acc : Z) (after : bool) :
  parse_digits acc after (NilEmpty.string_of_uint d) =
  match d with
  | Decimal.Nil => if after then Some acc else None
  | _ => Some (uint_val d acc)
  end.
Proof.
  revert acc after.
  induction d; intros acc after; cbn [NilEmpty.string_of_uint parse_digits];
    try reflexivity;
    change (is_digit _) with true; cbn [uint_val];
    unfold digit_val; cbn [nat_of_ascii]; rewrite IHd;
    (destruct d; reflexivity).
Qed.

Lemma uint_val_acc (d : Decimal.uint) (acc : positive) :
  uint_val d (Z.pos acc) = Z.pos (Pos.of_uint_acc d acc).
Proof.
  revert acc. induction d; intros acc; cbn [uint_val Pos.of_uint_acc];
    try reflexivity;
    match goal with
    | |- uint_val _ ?z = Z.pos (Pos.of_uint_acc _ ?q) =>
        replace z with (Z.pos q) by lia; apply IHd
    end.
Qed.

Lemma uint_val_zero (d : Decimal.uint) :
  uint_val d 0 = Z.of_N (Pos.of_uint d).
Proof.
  induction d; cbn [uint_val Pos.of_uint]; try reflexivity;
    try (exact IHd);
    match goal with
    | |- uint_val _ ?z = Z.of_N (N.pos (Pos.of_uint_acc _ ?q)) =>
        change z with (Z.pos q); apply uint_val_acc
    end.
Qed.

Lemma parse_to_uint (p : positive) :
  parse_digits 0 false (NilZero.string_of_uint (Pos.to_uint p)) = Some (Z.pos p).
Proof.
  pose proof (DecimalPos.Unsigned.to_uint_nonnil p) as Hn.
  pose proof (DecimalPos.Unsigned.of_to p) as Hof.
  assert (H : NilZero.string_of_uint (Pos.to_uint p) =
              NilEmpty.string_of_uint (Pos.to_uint p)).
  { destruct (Pos.to_uint p); [contradiction|reflexivity..]. }
  rewrite H, parse_digits_uint.
  destruct (Pos.to_uint p) eqn:E; [contradiction|..];
    rewrite uint_val_zero, Hof; reflexivity.
Qed.

Lemma first_digit_plain (d : Decimal.uint) (A : Type) (a b : string -> A)
    (c : string -> A) :
  d <> Decimal.Nil ->
  match NilEmpty.string_of_uint d with
  | String "-" r => a r
  | String "+" r => b r
  | r => c r
  end = c (NilEmpty.string_of_uint d).
Proof. destruct d; [contradiction | reflexivity..]. Qed.

(** [int(str(n)) == n] for every integer: what [str] prints, [int] reads
    back. *)
Lemma py_int_str_of_int (n : Z) : py_int (str_of_int n) = Some n.
Proof.
  destruct n as [|p|p]; [reflexivity|..]; unfold py_int, str_of_int;
    cbn [Z.to_int NilZero.string_of_int].
  - rewrite (strip_id _ (nz_digits_not_space (Pos.to_uint p))).
    rewrite <- (parse_to_uint p).
    pose proof (DecimalPos.Unsigned.to_uint_nonnil p) as Hn.
    destruct (Pos.to_uint p); [contradiction | reflexivity..].
  - rewrite strip_id.
    + now rewrite parse_to_uint.
    + cbn [all_chars]. now rewrite nz_digits_not_space.
Qed.

Section PidFile.

Variable self : Self.
Variable env : Env.

(** X1.  The pid that [deploy] saves is the pid the startup loop and
    [undeploy] read back: after a launch that yields pid [q] and writes the
    pid file, [_check_pid_file_process] tests exactly whether process [q] is
    alive, and [undeploy] would read [q]. *)
Theorem launched_pid_is_read_back (w : World) (q : Z) (wq : World) :
  env_popen env (launch_cmd self)
    (touch_log (log_to w "INFO"
       ("启动命令: " ++ String.concat " " (launch_cmd self)))) = (Ret q, wq) ->
  writable wq = true ->
  result (launch self env w) = Ret q /\
  pid_file (final (launch self env w)) = Some (str_of_int q) /\
  _check_pid_file_process (final (launch self env w)) = alive q wq /\
  read_pid (final (launch self env w)) =
    (Ret q, final (launch self env w), []).
Proof.
  intros Hq Hw.
  rewrite (SupervisorFacts.launch_run self env w). cbn zeta.
  rewrite Hq, Hw. cbn [result final fst snd].
  split; [reflexivity|]. split; [reflexivity|]. split.
  - unfold _check_pid_file_process. cbn [pid_file set_pid_file].
    now rewrite py_int_str_of_int.
  - unfold read_pid, bind, get. cbn [pid_file set_pid_file].
    now rewrite py_int_str_of_int.
Qed.

End PidFile.

Lemma launched_pid_is_read_back_witness :
  _check_pid_file_process
    (final (launch Scenario.self0 Scenario.env_quiet Scenario.w_stopped))
  = true.
Proof.
  exact (proj1 (proj2 (proj2
    (launched_pid_is_read_back Scenario.self0 Scenario.env_quiet
       Scenario.w_stopped 5000 _ eq_refl eq_refl)))).
Defined.

End IntFacts.

(* ===================================================================== *)
(** * More about generate_config *)
(* ===================================================================== *)

Module RenderProps.

Import PyStrFacts Render RenderFacts Supervisor.

Lemma contains_self (n : string) : contains n n = true.
Proof.
  rewrite <- (append_nil_r n) at 2. rewrite contains_unfold, prefix_app.
  reflexivity.
Qed.

(** X2.  A listen spec that is not local and carries the text [:80] gets
    the production template without HSTS: the written text has the header
    block with [X-Frame-Options "DENY"] and [Referrer-Policy], keeps five
    rolled logs, and the Strict-Transport-Security header name occurs in it
    only where an interpolated value carries it. *)
Theorem port_80_listen_spec_gets_http_profile (dir d : string) (p : Z)
    (h : string) (ssl : bool) (custom : option string) :
  truthy custom = false ->
  is_local d = false ->
  contains ":80" d = true ->
  config_content dir d p h ssl custom = template HttpOnly d h p dir /\
  contains http_profile (config_content dir d p h ssl custom) = true /\
  contains "roll_keep 5" (config_content dir d p h ssl custom) = true /\
  (contains hsts_name (config_content dir d p h ssl custom) = true ->
   contains hsts_name d = true \/ contains hsts_name h = true \/
   contains hsts_name dir = true).
Proof.
  intros Hc Hl H80.
  assert (E : config_content dir d p h ssl custom = template HttpOnly d h p dir).
  { rewrite (config_content_standard _ _ _ _ _ _ Hc).
    now rewrite select_variant_cases, <- is_local_prefixes, Hl, H80. }
  rewrite E. split; [reflexivity|].
  split; [apply contains_header; vm_compute; reflexivity|].
  split.
  - unfold template. do 9 apply contains_app_r. vm_compute. reflexivity.
  - apply hsts_only_from_inputs. discriminate.
Qed.

Lemma port_80_listen_spec_gets_http_profile_witness :
  contains http_profile
    (config_content "/home/u/.caddy" "example.com:80" 3000 "127.0.0.1" false
       None) = true.
Proof.
  exact (proj1 (proj2
    (port_80_listen_spec_gets_http_profile "/home/u/.caddy" "example.com:80"
       3000 "127.0.0.1" false None eq_refl eq_refl eq_refl))).
Defined.

(** X3.  A listen spec that is not local and does not carry the text [:80]
    gets the HTTPS template: the written text has the HSTS line, the
    [X-Frame-Options "DENY"] header and keeps five rolled logs. *)
Theorem listen_spec_without_80_gets_hsts (dir d : string) (p : Z)
    (h : string) (ssl : bool) (custom : option string) :
  truthy custom = false ->
  is_local d = false ->
  contains ":80" d = false ->
  config_content dir d p h ssl custom = template Https d h p dir /\
  contains hsts_line (config_content dir d p h ssl custom) = true /\
  contains ("X-Frame-Options " ++ dq ++ "DENY" ++ dq)
    (config_content dir d p h ssl custom) = true /\
  contains "roll_keep 5" (config_content dir d p h ssl custom) = true.
Proof.
  intros Hc Hl H80.
  assert (E : config_content dir d p h ssl custom = template Https d h p dir).
  { rewrite (config_content_standard _ _ _ _ _ _ Hc).
    now rewrite select_variant_cases, <- is_local_prefixes, Hl, H80. }
  rewrite E. split; [reflexivity|].
  split; [apply contains_header; vm_compute; reflexivity|].
  split; [apply contains_header; vm_compute; reflexivity|].
  unfold template. do 9 apply contains_app_r. vm_compute. reflexivity.
Qed.

Lemma listen_spec_without_80_gets_hsts_witness :
  contains hsts_line
    (config_content "/home/u/.caddy" "example.com" 3000 "127.0.0.1" false None)
  = true.
Proof.
  exact (proj1 (proj2
    (listen_spec_without_80_gets_hsts "/home/u/.caddy" "example.com"
       3000 "127.0.0.1" false None eq_refl eq_refl eq_refl))).
Defined.

(** X4.  The variant is decided by four tests on the listen spec alone: the
    three prefixes and the substring [:80].  The fourth disjunct of
    [is_local] (the text before the first colon) and the comparison
    [domain == ":80"] never change the outcome. *)
Theorem variant_is_decided_by_prefixes_and_port_text (d : string) :
  is_local d =
    (startswith d "localhost" || startswith d "127." ||
     startswith d "0.0.0.0") /\
  is_http_only d = contains ":80" d /\
  select_variant d =
    (if startswith d "localhost" || startswith d "127." ||
        startswith d "0.0.0.0"
     then LocalDev
     else if contains ":80" d then HttpOnly else Https).
Proof.
  split; [apply is_local_prefixes|]. split; [|apply select_variant_cases].
  unfold is_http_only. destruct (contains ":80" d) eqn:E; [reflexivity|].
  cbn [orb]. destruct (String.eqb_spec d ":80") as [->|_]; [|reflexivity].
  discriminate E.
Qed.

(** X5.  Whatever the variant, the rendered text opens with the listen spec
    and contains the proxy directive to the given backend host and port and
    the access-log directive under the configuration directory. *)
Theorem template_has_site_proxy_and_log (v : Variant) (d h : string) (p : Z)
    (dir : string) :
  startswith (template v d h p dir) (d ++ " {") = true /\
  contains (proxy_directive h p) (template v d h p dir) = true /\
  contains (log_directive dir) (template v d h p dir) = true.
Proof.
  split; [|split].
  - unfold startswith, template.
    change site_open with (" {" ++ (nl ++ "    reverse_proxy ")).
    rewrite (append_assoc " {" _ _), <- (append_assoc d " {" _).
    apply prefix_app.
  - unfold template, proxy_directive.
    change site_open with ((" {" ++ nl ++ "    ") ++ "reverse_proxy ").
    rewrite (append_assoc (" {" ++ nl ++ "    ") "reverse_proxy " _).
    do 2 apply contains_app_r.
    change proxy_body with (" {" ++ behead (behead proxy_body)).
    rewrite (append_assoc " {" (behead (behead proxy_body)) _).
    set (X := behead (behead proxy_body) ++ _).
    rewrite <- (append_assoc (str_of_int p) " {" X).
    rewrite <- (append_assoc ":" (str_of_int p ++ " {") X).
    rewrite <- (append_assoc h (":" ++ str_of_int p ++ " {") X).
    rewrite <- (append_assoc "reverse_proxy "
                  (h ++ ":" ++ str_of_int p ++ " {") X).
    apply contains_app_l, contains_self.
  - unfold template, log_directive.
    do 7 apply contains_app_r.
    change log_open with (inner_log ++ "output file ").
    rewrite (append_assoc inner_log "output file " _).
    apply contains_app_r.
    unfold log_tail.
    set (X := nl ++ _).
    rewrite <- (append_assoc dir "/access.log {" X).
    rewrite <- (append_assoc "output file " (dir ++ "/access.log {") X).
    apply contains_app_l, contains_self.
Qed.

End RenderProps.

(* ===================================================================== *)
(** * More about the log scan *)
(* ===================================================================== *)

Module LogProps.

Import PyStrFacts Supervisor.





Lemma contains_nonempty (n s : string) :
  n <> "" -> contains n s = true -> s <> "".
Proof.
  intros Hn H ->. rewrite contains_unfold, orb_false_r in H.
  destruct n; [contradiction | discriminate].
Qed.

Lemma take_nonempty (n : nat) (s : string) :
  s <> "" -> take (S n) s <> "".
Proof. destruct s; [contradiction | discriminate]. Qed.

Lemma classify_nonempty (line : string) : line <> "" -> classify line <> "".
Proof.
  intros H. unfold classify.
  repeat match goal with |- context [if ?c then _ else _] => destruct c end;
    try discriminate.
  now apply take_nonempty.
Qed.

Lemma scan_lines_nonempty (lines : list string) (e : string) :
  scan_lines lines = Some e -> e <> "".
Proof.
  induction lines as [|l rest IH]; [discriminate|]. cbn [scan_lines].
  destruct (contains "error:" (lower (strip l))
            || contains "failed" (lower (strip l))) eqn:E; [|exact IH].
  intros [= <-]. apply classify_nonempty.
  apply orb_true_iff in E as [E|E];
    (eapply contains_nonempty; [|exact E]); discriminate.
Qed.

(** X7.  The startup scan never reports an empty text: whenever it returns
    something, the test [if error_info:] of the polling loop holds and the
    deploy fails in that iteration. *)
Theorem startup_error_is_never_empty (w : World) (e : string) :
  _check_startup_errors w = Some e ->
  e <> "" /\ truthy (Some e) = true.
Proof.
  intros H. unfold _check_startup_errors in H.
  destruct (log_file w) as [lines|]; [|discriminate].
  apply scan_lines_nonempty in H. split; [exact H|].
  destruct e; [contradiction | reflexivity].
Qed.

Lemma startup_error_is_never_empty_witness :
  truthy (Some "端口被占用") = true.
Proof.
  exact (proj2 (startup_error_is_never_empty Scenario.w_port_error
                  "端口被占用" eq_refl)).
Defined.

(** [lower] and [strip] commute, and [lower] is idempotent. *)
Lemma is_space_lower (c : ascii) : is_space (lower_char c) = is_space c.
Proof. destruct c as [[] [] [] [] [] [] [] []]; reflexivity. Qed.

Lemma lower_char_idem (c : ascii) : lower_char (lower_char c) = lower_char c.
Proof. destruct c as [[] [] [] [] [] [] [] []]; reflexivity. Qed.

Lemma lower_idem (s : string) : lower (lower s) = lower s.
Proof.
  induction s as [|c s IH]; [reflexivity|].
  cbn [lower]. now rewrite lower_char_idem, IH.
Qed.

Lemma lstrip_lower (s : string) : lstrip (lower s) = lower (lstrip s).
Proof.
  induction s as [|c s IH]; [reflexivity|].
  cbn [lower lstrip]. rewrite is_space_lower.
  destruct (is_space c); [exact IH | reflexivity].
Qed.

Lemma rstrip_lower (s : string) : rstrip (lower s) = lower (rstrip s).
Proof.
  induction s as [|c s IH]; [reflexivity|].
  cbn [lower rstrip]. rewrite IH, is_space_lower.
  destruct (rstrip s); cbn [lower]; [destruct (is_space c)|]; reflexivity.
Qed.

Lemma strip_lower (s : string) : strip (lower s) = lower (strip s).
Proof. unfold strip. now rewrite lstrip_lower, rstrip_lower. Qed.

(** X8.  The scan ignores the case of ASCII letters: lower-casing every log
    line beforehand gives the same classification. *)
Theorem startup_scan_ignores_case (lines : list string) :
  scan_lines (map lower lines) = scan_lines lines.
Proof.
  induction lines as [|l rest IH]; [reflexivity|].
  cbn [map scan_lines]. now rewrite strip_lower, lower_idem, IH.
Qed.

(** X9.  The advice follows the classification: a line with
    [address already in use], or with both [bind] and [address], gets the
    four lines about ports; otherwise a line with [permission denied] gets
    the three lines about privileges; otherwise a line with [config] gets
    the three lines about the configuration. *)
Theorem advice_follows_classification (line : string) (w : World) :
  (contains "address already in use" line
   || contains "bind" line && contains "address" line = true ->
   events (_provide_error_solution (classify line) w) =
     map (ELog "INFO")
       ["解决方案:";
        "  1. 检查并停止其他Caddy进程: python caddy_deployer.py undeploy";
        "  2. 检查占用端口的进程: ss -tlnp | grep :2019";
        "  3. 修改配置使用不同端口"]) /\
  (contains "address already in use" line
   || contains "bind" line && contains "address" line = false ->
   contains "permission denied" line = true ->
   events (_provide_error_solution (classify line) w) =
     map (ELog "INFO")
       ["解决方案:";
        "  1. 使用sudo运行脚本 (如果需要绑定80/443端口)";
        "  2. 或修改配置使用非特权端口 (>1024)"]) /\
  (contains "address already in use" line
   || contains "bind" line && contains "address" line = false ->
   contains "permission denied" line = false ->
   contains "config" line = true ->
   events (_provide_error_solution (classify line) w) =
     map (ELog "INFO")
       ["解决方案:";
        "  1. 验证配置文件: caddy validate --config ~/.caddy/Caddyfile";
        "  2. 检查配置文件语法"]).
Proof.
  unfold classify. split; [|split].
  - intros H. apply orb_true_iff in H as [H|H].
    + rewrite H. reflexivity.
    + destruct (contains "address already in use" line); [reflexivity|].
      rewrite H. reflexivity.
  - intros H Hp. apply orb_false_iff in H as [H1 H2].
    rewrite H1, H2, Hp. reflexivity.
  - intros H Hp Hc. apply orb_false_iff in H as [H1 H2].
    rewrite H1, H2, Hp, Hc. reflexivity.
Qed.

Lemma advice_follows_classification_witness :
  events (_provide_error_solution
            (classify "error: listen tcp :443: bind: permission denied")
            Scenario.w_stopped) =
  map (ELog "INFO")
    ["解决方案:";
     "  1. 使用sudo运行脚本 (如果需要绑定80/443端口)";
     "  2. 或修改配置使用非特权端口 (>1024)"].
Proof.
  exact (proj1 (proj2 (advice_follows_classification
                         "error: listen tcp :443: bind: permission denied"
                         Scenario.w_stopped))
           eq_refl eq_refl).
Defined.

Lemma recent_logs_bound (n : nat) (w : World) :
  length (_get_recent_logs n w) <= n /\
  (log_file w = None -> _get_recent_logs n w = []).
Proof.
  unfold _get_recent_logs. split.
  - destruct (log_file w) as [lines|]; [|cbn; lia].
    rewrite length_map. unfold last_n. rewrite length_skipn. lia.
  - now intros ->.
Qed.



End LogProps.

(* ===================================================================== *)
(** * More about the lifecycle operations *)
(* ===================================================================== *)

Module LifecycleProps.

Import PyStrFacts Supervisor SupervisorFacts.

Section Lifecycle.

Variable self : Self.
Variable env : Env.

(** ** generate_config *)

(** X11.  A non-empty override is written as it is, whatever the listen
    spec and the backend are; an empty override counts as none. *)
Theorem override_is_written_verbatim (d : string) (p : Z) (h : string)
    (ssl : bool) (w : World) :
  (forall c, c <> "" -> writable w = true ->
     result (generate_config self d p h ssl (Some c) w) = Ret true /\
     config_file (final (generate_config self d p h ssl (Some c) w))
       = Some c) /\
  generate_config self d p h ssl (Some "") w =
  generate_config self d p h ssl None w.
Proof.
  split; [|reflexivity].
  intros c Hc Hw. rewrite generate_config_run. cbn zeta. rewrite Hw.
  destruct c; [contradiction|]. split; reflexivity.
Qed.


(** ** undeploy *)

Lemma unlink_run (w : World) :
  unlink_pid_file self w =
  match pid_file w with
  | None => (Ret tt, w, [])
  | Some _ =>
      if writable w
      then (Ret tt, set_pid_file None w, [EUnlink (pid_file_path self)])
      else (Raise (OSError "[Errno 13] Permission denied"), w, [])
  end.
Proof.
  unfold unlink_pid_file, bind, get, modify, emit, raise.
  destruct (pid_file w); [destruct (writable w)|]; reflexivity.
Qed.

Lemma none_left_after_filter {A} (f : A -> bool) (l : list A) :
  existsb f (filter (fun q => negb (f q)) l) = false.
Proof.
  induction l as [|q l IH]; [reflexivity|].
  cbn [filter]. destruct (f q) eqn:E; cbn [negb existsb]; [exact IH|].
  now rewrite E, IH.
Qed.

Lemma cleanup_spec (w : World) :
  exists wc tc,
    _cleanup_caddy_processes self w = (Ret tt, wc, tc) /\
    pid_file wc = pid_file w /\
    (system self = Windows -> existsb image_caddy_exe (procs wc) = false).
Proof.
  unfold _cleanup_caddy_processes. destruct (system self).
  - unfold bind, get, modify, emit.
    destruct (existsb image_caddy_exe (procs w)) eqn:E; cbn.
    + do 2 eexists. split; [reflexivity|]. split; [reflexivity|].
      intros _. apply none_left_after_filter.
    + do 2 eexists. split; [reflexivity|]. split; [reflexivity|]. now intros _.
  - do 2 eexists. split; [reflexivity|]. split; [reflexivity|]. discriminate.
Qed.

(** The tail of [undeploy]: sweep, log, return. *)
Lemma sweep_and_return (w : World) :
  exists wc tc,
    (_cleanup_caddy_processes self ;;
     log_info "Caddy服务停止成功" ;; ret true) w
    = (Ret true, log_to wc "INFO" "Caddy服务停止成功", tc) /\
    pid_file wc = pid_file w /\
    (system self = Windows -> existsb image_caddy_exe (procs wc) = false).
Proof.
  destruct (cleanup_spec w) as (wc & tc & Hc & Hp & Hw).
  exists wc. eexists. split; [|split; assumption].
  rewrite (bind_run _ _ w tt wc tc Hc).
  rewrite (bind_run (log_info "Caddy服务停止成功") _ wc tt
             (log_to wc "INFO" "Caddy服务停止成功")
             [ELog "INFO" "Caddy服务停止成功"] eq_refl).
  reflexivity.
Qed.

Lemma try_except_ret {A} (m : M A) (h : Exn -> M A) (w : World)
    (a : A) (w' : World) (t : Trace) :
  m w = (Ret a, w', t) -> try_except m h w = (Ret a, w', t).
Proof. intros H. unfold try_except. now rewrite H. Qed.

Lemma try_except_raise {A} (m : M A) (h : Exn -> M A) (w : World)
    (e : Exn) (w' : World) (t : Trace) :
  m w = (Raise e, w', t) ->
  try_except m h w =
  (result (h e w'), final (h e w'), (t ++ events (h e w'))%list).
Proof.
  intros H. unfold try_except. rewrite H. now destruct (h e w') as [[o w2] t2].
Qed.

Lemma bind_raise {A B} (m : M A) (k : A -> M B) (w : World)
    (e : Exn) (w' : World) (t : Trace) :
  m w = (Raise e, w', t) -> bind m k w = (Raise e, w', t).
Proof. intros H. unfold bind. now rewrite H. Qed.

(** Lines 421-440 when the pid file holds a pid. *)
Lemma stop_recorded_run (w : World) (content : string) (p : Z) :
  pid_file w = Some content ->
  py_int content = Some p ->
  exists wt tt',
    alive p wt = false /\
    (q <- read_pid ;;
     log_info ("终止进程 PID: " ++ str_of_int q) ;;
     terminate self env q ;; unlink_pid_file self) w =
    (result (unlink_pid_file self wt), final (unlink_pid_file self wt),
     (ELog "INFO" ("终止进程 PID: " ++ str_of_int p)
      :: tt' ++ events (unlink_pid_file self wt))%list).
Proof.
  intros Hf Hp.
  assert (Hread : read_pid w = (Ret p, w, [])).
  { unfold read_pid, bind, get. now rewrite Hf, Hp. }
  set (w2 := log_to w "INFO" ("终止进程 PID: " ++ str_of_int p)).
  destruct (terminate_kills self env p w2) as (wt & tt' & Ht & Hd).
  exists wt, tt'. split; [exact Hd|].
  rewrite (bind_run read_pid _ w p w [] Hread).
  rewrite (bind_run (log_info ("终止进程 PID: " ++ str_of_int p)) _ w tt w2
             [ELog "INFO" ("终止进程 PID: " ++ str_of_int p)] eq_refl).
  rewrite (bind_run (terminate self env p) _ w2 tt wt tt' Ht).
  reflexivity.
Qed.

(** Lines 421-423 when the pid file does not hold a number. *)
Lemma stop_recorded_bad (w : World) (content : string) :
  pid_file w = Some content ->
  py_int content = None ->
  (q <- read_pid ;;
   log_info ("终止进程 PID: " ++ str_of_int q) ;;
   terminate self env q ;; unlink_pid_file self) w =
  (Raise (ValueError ("invalid literal for int() with base 10: " ++ content)),
   w, []).
Proof.
  intros Hf Hp. apply bind_raise.
  unfold read_pid, bind, get. now rewrite Hf, Hp.
Qed.

Ltac enter_undeploy w Hr :=
  unfold undeploy, try_except;
  rewrite (bind_run (log_info "停止Caddy服务...") _ w tt
             (log_to w "INFO" "停止Caddy服务...")
             [ELog "INFO" "停止Caddy服务..."] eq_refl);
  rewrite (bind_run get _ (log_to w "INFO" "停止Caddy服务...")
             (log_to w "INFO" "停止Caddy服务...")
             (log_to w "INFO" "停止Caddy服务...") [] eq_refl);
  change (is_running self (log_to w "INFO" "停止Caddy服务..."))
    with (is_running self w);
  rewrite Hr;
  change (pid_file (log_to w "INFO" "停止Caddy服务...")) with (pid_file w);
  cbn [negb].

(** No pid file: only the sweep. *)
Lemma undeploy_without_pid_file (w : World) :
  is_running self w = true ->
  pid_file w = None ->
  exists wc tc,
    undeploy self env w =
    (Ret true, log_to wc "INFO" "Caddy服务停止成功",
     ELog "INFO" "停止Caddy服务..." :: tc) /\
    pid_file wc = None /\
    (system self = Windows -> existsb image_caddy_exe (procs wc) = false).
Proof.
  intros Hr Hf. enter_undeploy w Hr. rewrite Hf.
  set (w1 := log_to w "INFO" "停止Caddy服务...").
  rewrite (bind_run (ret tt) _ w1 tt w1 [] eq_refl).
  destruct (sweep_and_return w1) as (wc & tc & Hs & Hp & Hw).
  rewrite Hs. exists wc, tc. cbn [result final events fst snd app].
  split; [reflexivity|]. split; [|exact Hw].
  rewrite Hp. exact Hf.
Qed.

Lemma undeploy_unreadable_pid_file_aux (w : World) (content : string) :
  is_running self w = true ->
  pid_file w = Some content ->
  py_int content = None ->
  result (undeploy self env w) = Ret false /\
  procs (final (undeploy self env w)) = procs w /\
  pid_file (final (undeploy self env w)) = pid_file w /\
  events (undeploy self env w) =
    [ELog "INFO" "停止Caddy服务...";
     ELog "ERROR" ("停止服务失败: invalid literal for int() with base 10: "
                   ++ content)].
Proof.
  intros Hr Hf Hp. enter_undeploy w Hr. rewrite Hf.
  set (w1 := log_to w "INFO" "停止Caddy服务...").
  rewrite (bind_raise _ _ w1 _ w1 [] (stop_recorded_bad w1 content Hf Hp)).
  split; [reflexivity|]. split; [reflexivity|].
  split; [exact Hf | reflexivity].
Qed.

(** X13.  When the service runs but the pid file does not hold a number,
    [undeploy] gives up at once: it returns failure, sends no signal, runs no
    sweep and leaves the pid file and the processes as they are. *)
Theorem undeploy_unreadable_pid_file (w : World) (content : string) :
  is_running self w = true ->
  pid_file w = Some content ->
  py_int content = None ->
  result (undeploy self env w) = Ret false /\
  procs (final (undeploy self env w)) = procs w /\
  pid_file (final (undeploy self env w)) = pid_file w /\
  events (undeploy self env w) =
    [ELog "INFO" "停止Caddy服务...";
     ELog "ERROR" ("停止服务失败: invalid literal for int() with base 10: "
                   ++ content)].
Proof. exact (undeploy_unreadable_pid_file_aux w content). Qed.

(** The state a successful [undeploy] of a running service leaves. *)
Lemma undeploy_success_state (w : World) :
  is_running self w = true ->
  result (undeploy self env w) = Ret true ->
  pid_file (final (undeploy self env w)) = None /\
  (system self = Windows ->
   existsb image_caddy_exe (procs (final (undeploy self env w))) = false).
Proof.
  intros Hr.
  destruct (pid_file w) as [content|] eqn:Hf.
  2:{ destruct (undeploy_without_pid_file w Hr Hf) as (wc & tc & -> & Hp & Hw).
      intros _. split; [exact Hp | exact Hw]. }
  destruct (py_int content) as [p|] eqn:Hp.
  2:{ rewrite (proj1 (undeploy_unreadable_pid_file_aux w content Hr Hf Hp)).
      discriminate. }
  enter_undeploy w Hr. rewrite Hf.
  set (w1 := log_to w "INFO" "停止Caddy服务...").
  destruct (stop_recorded_run w1 content p Hf Hp) as (wt & tt' & _ & Hrun).
  rewrite unlink_run in Hrun.
  destruct (pid_file wt) as [c'|] eqn:Hft; [destruct (writable wt)|].
  - rewrite (bind_run _ _ w1 tt (set_pid_file None wt) _ Hrun).
    destruct (sweep_and_return (set_pid_file None wt))
      as (wc & tc & Hs & Hpc & Hw).
    rewrite Hs. cbn [result final events fst snd]. intros _.
    split; [exact Hpc | exact Hw].
  - rewrite (bind_raise _ _ w1 _ wt _ Hrun).
    cbn [result final events fst snd]. discriminate.
  - rewrite (bind_run _ _ w1 tt wt _ Hrun).
    destruct (sweep_and_return wt) as (wc & tc & Hs & Hpc & Hw).
    rewrite Hs. cbn [result final events fst snd]. intros _.
    split; [|exact Hw].
    change (pid_file wc = None). now rewrite Hpc.
Qed.

(** X14.  When [undeploy] stops a running service and returns success, no
    pid file is left. *)
Theorem undeploy_success_removes_pid_file (w : World) :
  is_running self w = true ->
  result (undeploy self env w) = Ret true ->
  pid_file (final (undeploy self env w)) = None.
Proof. intros Hr Hs. exact (proj1 (undeploy_success_state w Hr Hs)). Qed.


(** ** deploy *)

Lemma poll_true (n : nat) (p : Z) (w : World) :
  result (poll env n p w) = Ret (Some true) ->
  _check_pid_file_process (final (poll env n p w)) = true.
Proof.
  revert w. induction n as [|n IH]; intros w; [discriminate|].
  rewrite poll_step. cbn zeta.
  destruct (_check_pid_file_process (env_sleep env 1 w)) eqn:Ep.
  - intros _. exact Ep.
  - destruct (_check_startup_errors (env_sleep env 1 w)) as [e|];
      [destruct (truthy (Some e))|]; cbn [result final fst snd];
      try discriminate; apply IH.
Qed.

(** X16.  [deploy] returns success only when the process whose pid the pid
    file holds is alive at that moment. *)
Theorem deploy_success_means_recorded_process_alive (w : World) :
  result (deploy self env w) = Ret true ->
  _check_pid_file_process (final (deploy self env w)) = true.
Proof.
  destruct (startup self env w) as [[[p|e] wl] tl] eqn:Es.
  - rewrite (deploy_run self env w p wl tl Es), wait_for_start_run.
    cbn zeta.
    destruct (poll env max_wait p (log_to wl "INFO" "等待Caddy启动..."))
      as [[[[b|]|e] w1] t1] eqn:Ep; cbn [result final events fst snd].
    + intros [= ->].
      pose proof (poll_true max_wait p
                    (log_to wl "INFO" "等待Caddy启动...")) as H.
      rewrite Ep in H. exact (H eq_refl).
    + rewrite (proj1 (start_timeout_run w1)). discriminate.
    + discriminate.
  - unfold deploy.
    rewrite (try_except_raise _ _ w e wl tl (bind_raise _ _ w e wl tl Es)).
    discriminate.
Qed.






(** X19.  When the port probes raise, [deploy] fails before anything is
    stopped or started: it returns failure with two log records and no other
    effect. *)
Theorem deploy_fails_when_port_probe_raises (w : World) (e : Exn) :
  env_port_conflicts env (log_to w "INFO" "开始部署Caddy服务...") = Raise e ->
  result (deploy self env w) = Ret false /\
  procs (final (deploy self env w)) = procs w /\
  pid_file (final (deploy self env w)) = pid_file w /\
  events (deploy self env w) =
    [ELog "INFO" "开始部署Caddy服务...";
     ELog "ERROR" ("部署失败: " ++ exn_str e)].
Proof.
  intros He.
  set (w0 := log_to w "INFO" "开始部署Caddy服务...") in *.
  assert (Hc : conflict_phase self env w0 = (Raise e, w0, [])).
  { unfold conflict_phase. apply bind_raise. unfold observe. now rewrite He. }
  assert (Hs : startup self env w =
               (Raise e, w0, [ELog "INFO" "开始部署Caddy服务..."])).
  { unfold startup.
    rewrite (bind_run (log_info "开始部署Caddy服务...") _ w tt w0
               [ELog "INFO" "开始部署Caddy服务..."] eq_refl).
    rewrite (bind_raise _ _ w0 e w0 [] Hc). reflexivity. }
  unfold deploy.
  rewrite (try_except_raise _ _ w e w0 _ (bind_raise _ _ w e w0 _ Hs)).
  repeat split.
Qed.

End Lifecycle.

Lemma override_is_written_verbatim_witness :
  config_file (final (generate_config Scenario.self0 "example.com" 3000
                        "127.0.0.1" false (Some ":8080 { respond 200 }")
                        Scenario.w_stopped))
  = Some ":8080 { respond 200 }".
Proof.
  refine (proj2 (proj1 (override_is_written_verbatim Scenario.self0
                          "example.com" 3000 "127.0.0.1" false
                          Scenario.w_stopped)
                   ":8080 { respond 200 }" _ eq_refl)).
  discriminate.
Defined.


Lemma undeploy_unreadable_pid_file_witness :
  result (undeploy Scenario.self0 Scenario.env_quiet Scenario.w_bad_pid)
  = Ret false.
Proof.
  exact (proj1 (undeploy_unreadable_pid_file Scenario.self0 Scenario.env_quiet
                  Scenario.w_bad_pid "abc" eq_refl eq_refl eq_refl)).
Defined.

Lemma undeploy_success_removes_pid_file_witness :
  pid_file (final (undeploy Scenario.self0 Scenario.env_quiet
                     Scenario.w_running)) = None.
Proof.
  apply (undeploy_success_removes_pid_file Scenario.self0 Scenario.env_quiet
           Scenario.w_running); vm_compute; reflexivity.
Defined.


Lemma deploy_success_means_recorded_process_alive_witness :
  _check_pid_file_process
    (final (deploy Scenario.self0 Scenario.env_quiet Scenario.w_stopped))
  = true.
Proof.
  apply (deploy_success_means_recorded_process_alive Scenario.self0
           Scenario.env_quiet Scenario.w_stopped).
  vm_compute. reflexivity.
Defined.


Lemma deploy_fails_when_port_probe_raises_witness :
  result (deploy Scenario.self0 Scenario.env_probe_fails Scenario.w_stopped)
  = Ret false.
Proof.
  exact (proj1 (deploy_fails_when_port_probe_raises Scenario.self0
                  Scenario.env_probe_fails Scenario.w_stopped
                  (OtherError "port must be 0-65535.") eq_refl)).
Defined.

End LifecycleProps.

(* ===================================================================== *)
(** * More about the health report *)
(* ===================================================================== *)

Module HealthProps.

Import PyStrFacts Supervisor SupervisorFacts Health.

Section Reports.

Variable self : Self.
Variable env : Env.

(** What each check can return. *)
Lemma check_process_run (w : World) :
  exists c, _check_process self w = (Ret c, w, []) /\ required c = true.
Proof.
  unfold _check_process, try_except, bind, get, read_pid, bind, get, ret, raise.
  destruct (is_running self w); cbn; [|now eexists].
  destruct (pid_file w) as [content|] eqn:Ef; cbn; [|now eexists].
  rewrite ?Ef. destruct (py_int content); cbn; now eexists.
Qed.

Lemma validate_config_frame (w : World) :
  exists b w' msgs,
    validate_config env w = (Ret b, w', msgs) /\
    procs w' = procs w /\ pid_file w' = pid_file w /\
    config_file w' = config_file w /\ writable w' = writable w /\
    (forall e, In e msgs -> exists level msg, e = ELog level msg).
Proof.
  unfold validate_config, try_except, bind, get, observe, log_info,
    log_error, log, ret.
  destruct (env_caddy_installed env w); cbn.
  2:{ do 3 eexists. split; [reflexivity|]. now repeat split. }
  destruct (config_file w) as [content|] eqn:Ef; cbn.
  2:{ do 3 eexists. split; [reflexivity|]. now repeat split. }
  destruct (env_validate env w) as [[[] err]|e]; cbn.
  - do 3 eexists. split; [reflexivity|]. repeat split; try assumption.
    intros e [<-|[]]. now eexists _, _.
  - do 3 eexists. split; [reflexivity|]. repeat split; try assumption.
    intros e [<-|[]]. now eexists _, _.
  - do 3 eexists. split; [reflexivity|]. now repeat split.
Qed.

Lemma check_config_run (w : World) :
  exists c w' msgs,
    _check_config self env w = (Ret c, w', msgs) /\ required c = true /\
    procs w' = procs w /\ pid_file w' = pid_file w /\
    config_file w' = config_file w /\ writable w' = writable w /\
    (forall e, In e msgs -> exists level msg, e = ELog level msg).
Proof.
  unfold _check_config, try_except.
  rewrite (bind_run get _ w w w [] eq_refl).
  destruct (config_file w) as [content|] eqn:Ef.
  2:{ do 3 eexists. split; [reflexivity|]. now repeat split. }
  destruct (validate_config_frame w) as (b & w' & msgs & Hv & Hfr).
  rewrite (bind_run (validate_config env) _ w b w' msgs Hv).
  destruct b; cbn [result final events fst snd ret];
    rewrite app_nil_r; do 3 eexists; (split; [reflexivity|]);
    (split; [reflexivity | rewrite <- Ef; exact Hfr]).
Qed.

Lemma check_ports_run (w : World) :
  exists c, _check_ports env w = (Ret c, w, []) /\ required c = true.
Proof.
  unfold _check_ports, try_except, bind, observe, ret.
  destruct (env_listening_ports env w) as [ports|e]; cbn; [|now eexists].
  destruct (nonempty ports); now eexists.
Qed.

Lemma check_frontend_run (w : World) :
  exists c, _check_frontend_connectivity env w = (Ret c, w, []) /\
            required c = true.
Proof.
  unfold _check_frontend_connectivity, try_except, bind, observe, ret.
  destruct (env_frontend_tests env w) as [results|e]; cbn; [|now eexists].
  destruct (nonempty (filter success results)); now eexists.
Qed.

Lemma check_backend_run (w : World) :
  exists c, _check_backend_connectivity env w = (Ret c, w, []) /\
            (required c = true -> status c = StOk).
Proof.
  unfold _check_backend_connectivity, try_except, bind, observe, ret.
  destruct (env_backend_tests env w) as [results|e]; cbn;
    [|eexists; split; [reflexivity | discriminate]].
  destruct (nonempty (filter success results)); eexists;
    (split; [reflexivity|]); [reflexivity | discriminate].
Qed.

Lemma check_ssl_run (w : World) :
  exists c, _check_ssl_status env w = (Ret c, w, []) /\ required c = false.
Proof.
  unfold _check_ssl_status, try_except, bind, observe, ret.
  destruct (env_https_certs env w) as [results|e]; cbn; [|now eexists].
  destruct (negb (nonempty results)); [now eexists|].
  destruct (Nat.eqb _ _); now eexists.
Qed.

(** The run of [health_check], piece by piece. *)
Lemma health_check_parts (w : World) :
  exists c1 c2 c3 c4 c5 c6 w' msgs,
    (forall detailed,
    health_check self env detailed w =
    (Ret {| timestamp := env_timestamp env w;
            overall_status :=
              overall [("process", c1); ("config", c2); ("ports", c3);
                       ("frontend", c4); ("backend", c5); ("ssl", c6)];
            checks := [("process", c1); ("config", c2); ("ports", c3);
                       ("frontend", c4); ("backend", c5); ("ssl", c6)];
            logs := if detailed then Some (_get_recent_logs 50 w') else None;
            system_info :=
              if detailed then Some (_get_system_info self env w') else None |},
     w', msgs)) /\
    required c1 = true /\ required c2 = true /\ required c3 = true /\
    required c4 = true /\ (required c5 = true -> status c5 = StOk) /\
    required c6 = false /\
    procs w' = procs w /\ pid_file w' = pid_file w /\
    config_file w' = config_file w /\ writable w' = writable w /\
    (forall e, In e msgs -> exists level msg, e = ELog level msg).
Proof.
  destruct (check_process_run w) as (c1 & H1 & R1).
  destruct (check_config_run w) as (c2 & w' & msgs & H2 & R2 & Hfr).
  destruct (check_ports_run w') as (c3 & H3 & R3).
  destruct (check_frontend_run w') as (c4 & H4 & R4).
  destruct (check_backend_run w') as (c5 & H5 & R5).
  destruct (check_ssl_run w') as (c6 & H6 & R6).
  exists c1, c2, c3, c4, c5, c6, w', msgs.
  destruct Hfr as (F1 & F2 & F3 & F4 & F5).
  split; [|repeat (split; [assumption|]); exact F5].
  intros detailed. unfold health_check.
  rewrite (bind_run get _ w w w [] eq_refl).
  rewrite (bind_run _ _ w c1 w [] H1).
  rewrite (bind_run _ _ w c2 w' msgs H2).
  rewrite (bind_run _ _ w' c3 w' [] H3).
  rewrite (bind_run _ _ w' c4 w' [] H4).
  rewrite (bind_run _ _ w' c5 w' [] H5).
  rewrite (bind_run _ _ w' c6 w' [] H6).
  rewrite (bind_run get _ w' w' w' [] eq_refl).
  cbn [result final events fst snd ret app]. now rewrite app_nil_r.
Qed.

(** X20.  The overall status is decided by four checks only: the report
    is healthy exactly when the process, config, ports and frontend checks
    are all [ok].  The backend check is marked required only when it
    succeeded and the TLS check never is, so neither can make a report
    unhealthy. *)
Theorem overall_is_decided_by_four_checks (detailed : bool) (w : World)
    (rep : Report) :
  result (health_check self env detailed w) = Ret rep ->
  (overall_status rep = Healthy <->
   forall name, In name ["process"; "config"; "ports"; "frontend"] ->
     exists c, lookup name (checks rep) = Some c /\ status c = StOk).
Proof.
  destruct (health_check_parts w)
    as (c1 & c2 & c3 & c4 & c5 & c6 & w' & msgs & Hrun
        & R1 & R2 & R3 & R4 & R5 & R6 & _).
  rewrite (Hrun detailed). cbn [result fst]. intros [= <-].
  cbn [overall_status checks]. unfold overall.
  rewrite !HealthFacts.all_checks_passed_cons, R1, R2, R3, R4, R6.
  assert (H5 : (if required c5 then status_eqb (status c5) StOk else true)
               = true).
  { destruct (required c5); [|reflexivity]. now rewrite (R5 eq_refl). }
  rewrite H5. cbn [all_checks_passed filter forallb andb].
  rewrite !andb_true_r. split.
  - intros H name Hin.
    destruct (status_eqb (status c1) StOk) eqn:E1; [|discriminate].
    destruct (status_eqb (status c2) StOk) eqn:E2; [|discriminate].
    destruct (status_eqb (status c3) StOk) eqn:E3; [|discriminate].
    destruct (status_eqb (status c4) StOk) eqn:E4; [|discriminate].
    apply HealthFacts.status_eqb_eq in E1, E2, E3, E4.
    destruct Hin as [<-|[<-|[<-|[<-|[]]]]]; eexists; (split; [reflexivity|]);
      assumption.
  - intros H.
    destruct (H "process" ltac:(cbn; tauto)) as (d1 & L1 & S1).
    destruct (H "config" ltac:(cbn; tauto)) as (d2 & L2 & S2).
    destruct (H "ports" ltac:(cbn; tauto)) as (d3 & L3 & S3).
    destruct (H "frontend" ltac:(cbn; tauto)) as (d4 & L4 & S4).
    cbn in L1, L2, L3, L4.
    injection L1 as ->. injection L2 as ->.
    injection L3 as ->. injection L4 as ->.
    now rewrite S1, S2, S3, S4.
Qed.

(** X21.  The flag [detailed] changes nothing in the checks, the overall
    status, the effects or the state left behind; it only adds the recent
    log lines (fifty at most) and the system information to the report. *)
Theorem detailed_only_adds_information (w : World) :
  exists plain full,
    result (health_check self env false w) = Ret plain /\
    result (health_check self env true w) = Ret full /\
    checks plain = checks full /\
    overall_status plain = overall_status full /\
    timestamp plain = timestamp full /\
    final (health_check self env false w)
      = final (health_check self env true w) /\
    events (health_check self env false w)
      = events (health_check self env true w) /\
    logs plain = None /\ system_info plain = None /\
    (exists lines, logs full = Some lines /\ length lines <= 50) /\
    system_info full <> None.
Proof.
  destruct (health_check_parts w)
    as (c1 & c2 & c3 & c4 & c5 & c6 & w' & msgs & Hrun & _).
  do 2 eexists. rewrite (Hrun false), (Hrun true).
  cbn [result final events fst snd].
  repeat (split; [reflexivity|]).
  split; [|discriminate].
  eexists. split; [reflexivity|].
  apply (proj1 (LogProps.recent_logs_bound 50 w')).
Qed.

(** X22.  A health check observes: it leaves the processes, the pid file,
    the configuration file and the permissions as they are, and all it does
    is log (the records of [validate_config]). *)
Theorem health_check_changes_nothing (detailed : bool) (w : World) :
  procs (final (health_check self env detailed w)) = procs w /\
  pid_file (final (health_check self env detailed w)) = pid_file w /\
  config_file (final (health_check self env detailed w)) = config_file w /\
  writable (final (health_check self env detailed w)) = writable w /\
  (forall e, In e (events (health_check self env detailed w)) ->
     exists level msg, e = ELog level msg).
Proof.
  destruct (health_check_parts w)
    as (c1 & c2 & c3 & c4 & c5 & c6 & w' & msgs & Hrun
        & _ & _ & _ & _ & _ & _ & F1 & F2 & F3 & F4 & F5).
  rewrite (Hrun detailed). cbn [final events fst snd].
  repeat (split; [assumption|]). exact F5.
Qed.

(** The run of [diagnose]. *)
Lemma diagnose_run (w : World) :
  exists c1 c2 c3 c4 c5 c6 rep,
    checks rep = [("process", c1); ("config", c2); ("ports", c3);
                  ("frontend", c4); ("backend", c5); ("ssl", c6)] /\
    overall_status rep = overall (checks rep) /\
    required c1 = true /\ required c2 = true /\
    result (diagnose self env w) =
    Ret {| dg_timestamp := env_timestamp env (log_to w "INFO" "开始诊断检查...");
           dg_health_check := rep;
           recommendations :=
             ((if status_eqb (status c1) StOk then []
               else ["建议检查Caddy服务是否正确启动"])
              ++ (if status_eqb (status c2) StOk then []
                  else ["建议检查配置文件语法和有效性"])
              ++ (if status_eqb (status c5) StWarning
                  then ["建议检查后端服务是否正常运行"] else [])
              ++ (if status_eqb (status c6) StWarning
                  then ["建议检查SSL证书状态和有效期"] else []))%list |}.
Proof.
  set (w0 := log_to w "INFO" "开始诊断检查...").
  destruct (health_check_parts w0)
    as (c1 & c2 & c3 & c4 & c5 & c6 & w' & msgs & Hrun & R1 & R2 & _).
  exists c1, c2, c3, c4, c5, c6. eexists.
  split; [|split; [|split; [exact R1|split; [exact R2|]]]].
  3:{ unfold diagnose.
      rewrite (bind_run (log_info "开始诊断检查...") _ w tt w0
                 [ELog "INFO" "开始诊断检查..."] eq_refl).
      rewrite (bind_run get _ w0 w0 w0 [] eq_refl).
      rewrite (bind_run _ _ w0 _ w' msgs (Hrun true)).
      cbn [result final events fst snd checks].
      unfold get_check. cbn [lookup String.eqb Ascii.eqb Bool.eqb].
      unfold bind, ret. cbn [result fst]. reflexivity. }
  - reflexivity.
  - reflexivity.
Qed.

(** X23.  [diagnose] always returns.  Its recommendations come from the
    process, config, backend and TLS checks only: for a healthy report they
    can only be the two advisory ones, and when process and config are [ok]
    and neither backend nor TLS warns there is none, although the report may
    be unhealthy because of the ports or the frontend. *)
Theorem diagnose_recommendations (w : World) :
  exists dg,
    result (diagnose self env w) = Ret dg /\
    length (recommendations dg) <= 4 /\
    (overall_status (dg_health_check dg) = Healthy ->
     forall r, In r (recommendations dg) ->
       r = "建议检查后端服务是否正常运行" \/ r = "建议检查SSL证书状态和有效期") /\
    (forall c1 c2 c5 c6,
       lookup "process" (checks (dg_health_check dg)) = Some c1 ->
       lookup "config" (checks (dg_health_check dg)) = Some c2 ->
       lookup "backend" (checks (dg_health_check dg)) = Some c5 ->
       lookup "ssl" (checks (dg_health_check dg)) = Some c6 ->
       status c1 = StOk -> status c2 = StOk ->
       status c5 <> StWarning -> status c6 <> StWarning ->
       recommendations dg = []).
Proof.
  destruct (diagnose_run w)
    as (c1 & c2 & c3 & c4 & c5 & c6 & rep & Hc & Ho & R1 & R2 & Hrun).
  eexists. split; [exact Hrun|].
  cbn [recommendations dg_health_check]. split; [|split].
  - rewrite !length_app.
    destruct (status_eqb (status c1) StOk), (status_eqb (status c2) StOk),
      (status_eqb (status c5) StWarning), (status_eqb (status c6) StWarning);
      cbn; lia.
  - rewrite Ho, Hc. unfold overall.
    rewrite !HealthFacts.all_checks_passed_cons, R1, R2.
    destruct (status_eqb (status c1) StOk); [|discriminate].
    destruct (status_eqb (status c2) StOk); [|cbn; discriminate].
    intros _ r Hin. cbn [app] in Hin.
    apply in_app_or in Hin as [Hin|Hin].
    + destruct (status_eqb (status c5) StWarning);
        [destruct Hin as [<-|[]]; now left | destruct Hin].
    + destruct (status_eqb (status c6) StWarning);
        [destruct Hin as [<-|[]]; now right | destruct Hin].
  - rewrite Hc. cbn [lookup String.eqb Ascii.eqb Bool.eqb].
    intros d1 d2 d5 d6 [= <-] [= <-] [= <-] [= <-] S1 S2 S5 S6.
    rewrite S1, S2. cbn [status_eqb app].
    destruct (status_eqb (status c5) StWarning) eqn:E5;
      [apply HealthFacts.status_eqb_eq in E5; contradiction|].
    destruct (status_eqb (status c6) StWarning) eqn:E6;
      [apply HealthFacts.status_eqb_eq in E6; contradiction|].
    reflexivity.
Qed.

(** X24.  [status] reports a pid only for a service it detects as running
    and only when the pid file holds a number; an unreadable pid file is
    passed over, the service is still reported as running. *)
Theorem status_reports_pid_only_when_running (w : World) :
  (forall p, st_pid (Supervisor.status self w) = Some p ->
     st_running (Supervisor.status self w) = true /\
     exists content, pid_file w = Some content /\ py_int content = Some p) /\
  (forall content, is_running self w = true -> pid_file w = Some content ->
     py_int content = None ->
     st_running (Supervisor.status self w) = true /\ st_pid (Supervisor.status self w) = None).
Proof.
  unfold Supervisor.status. cbn [st_pid st_running]. split.
  - intros p H. destruct (is_running self w); [|discriminate].
    split; [reflexivity|].
    destruct (pid_file w) as [content|]; [|discriminate]. now exists content.
  - intros content Hr Hf Hp. now rewrite Hr, Hf.
Qed.

End Reports.

Lemma overall_is_decided_by_four_checks_witness :
  exists rep,
    result (health_check Scenario.self0 Scenario.env_quiet false
              Scenario.w_running) = Ret rep /\
    overall_status rep = Healthy.
Proof.
  eexists. split; [vm_compute; reflexivity|].
  apply (proj2 (overall_is_decided_by_four_checks Scenario.self0
                  Scenario.env_quiet false Scenario.w_running _
                  ltac:(vm_compute; reflexivity))).
  intros name [<-|[<-|[<-|[<-|[]]]]]; eexists; split; vm_compute; reflexivity.
Defined.

Lemma diagnose_recommendations_witness :
  exists dg,
    result (diagnose Scenario.self0 Scenario.env_quiet Scenario.w_running)
      = Ret dg /\
    recommendations dg = [].
Proof.
  destruct (diagnose_recommendations Scenario.self0 Scenario.env_quiet
              Scenario.w_running) as (dg & Hr & _ & _ & Hc).
  exists dg. split; [exact Hr|].
  pose proof Hr as Hv. vm_compute in Hv. injection Hv as <-.
  eapply Hc; vm_compute; first [reflexivity | discriminate].
Defined.

Lemma status_reports_pid_only_when_running_witness :
  st_running (Supervisor.status Scenario.self0 Scenario.w_running) = true.
Proof.
  exact (proj1 (proj1 (status_reports_pid_only_when_running Scenario.self0
                         Scenario.w_running) 4242%Z eq_refl)).
Defined.

End HealthProps.

(* ===================================================================== *)
(** * Facts about reading the configuration back *)
(* ===================================================================== *)

Module ExtractFacts.

Import PyStrFacts Render Extract.

(** ** Greedy runs *)

Lemma span_eq (f : ascii -> bool) (s : string) :
  s = fst (span f s) ++ snd (span f s).
Proof.
  induction s as [|c s IH]; [reflexivity|].
  cbn [span]. destruct (f c); cbn [fst snd append]; [now rewrite <- IH|].
  reflexivity.
Qed.

Lemma span_fst_all (f : ascii -> bool) (s : string) :
  all_chars f (fst (span f s)) = true.
Proof.
  induction s as [|c s IH]; [reflexivity|].
  cbn [span]. destruct (f c) eqn:E; cbn [fst all_chars]; [|reflexivity].
  now rewrite E, IH.
Qed.

(** A run followed by a character outside the class is the greedy run. *)
Lemma span_app (f : ascii -> bool) (a b : string) :
  all_chars f a = true ->
  match b with EmptyString => True | String c _ => f c = false end ->
  span f (a ++ b) = (a, b).
Proof.
  intros Ha Hb. induction a as [|c a IH]; cbn [append].
  - destruct b as [|c b]; [reflexivity|]. cbn [span]. now rewrite Hb.
  - cbn [all_chars] in Ha. apply andb_true_iff in Ha as [Hc Ha].
    cbn [span]. now rewrite Hc, (IH Ha).
Qed.


(** ** The port pattern *)

Lemma port_here_colon (bol : bool) (c : ascii) (s : string) :
  Ascii.eqb c ":" = false -> port_here bol (String c s) = None.
Proof.
  intros H. apply Ascii.eqb_neq in H. unfold port_here.
  destruct c as [[] [] [] [] [] [] [] []]; try reflexivity. contradiction.
Qed.

Lemma port_here_bol (b1 b2 : bool) (s : string) :
  port_here b1 s = port_here b2 s.
Proof. reflexivity. Qed.

Lemma findall_port_bol (k : nat) (b1 b2 : bool) (s : string) :
  findall port_here k b1 s = findall port_here k b2 s.
Proof. destruct s; reflexivity. Qed.

(** Skipping characters that are not colons skips no match. *)
Lemma findall_port_skip (s : string) (k : nat) (bol : bool) :
  colon_free k s = true ->
  findall port_here k bol s = findall port_here 0 bol s.
Proof.
  revert k bol. induction s as [|c s IH]; intros k bol H; [now destruct k|].
  destruct k as [|k]; [reflexivity|].
  cbn [colon_free] in H. apply andb_true_iff in H as [Hc Hk].
  apply negb_true_iff in Hc.
  cbn [findall]. rewrite (port_here_colon bol c s Hc). now apply IH.
Qed.

Lemma colon_free_run (f : ascii -> bool) (a b : string) (k : nat) :
  f ":"%char = false -> all_chars f a = true ->
  colon_free k b = true ->
  colon_free (String.length a + k) (a ++ b) = true.
Proof.
  intros Hf Ha Hb. induction a as [|c a IH]; [exact Hb|].
  cbn [all_chars] in Ha. apply andb_true_iff in Ha as [Hc Ha].
  cbn [String.length Nat.add append colon_free]. rewrite (IH Ha).
  destruct (Ascii.eqb_spec c ":") as [->|_]; [congruence|reflexivity].
Qed.

(** What a match of the port pattern consumed holds no second colon. *)
Lemma port_here_consumed (bol : bool) (c : ascii) (s : string)
    (g : string) (len : nat) :
  port_here bol (String c s) = Some (g, len) ->
  colon_free (len - 1) s = true.
Proof.
  unfold port_here.
  destruct (Ascii.eqb c ":") eqn:Ec.
  2:{ pose proof (port_here_colon bol c s Ec) as H. unfold port_here in H.
      rewrite H. discriminate. }
  apply Ascii.eqb_eq in Ec. subst c.
  pose proof (span_eq is_digit s) as E1.
  pose proof (span_fst_all is_digit s) as A1.
  destruct (span is_digit s) as [ds r1]. cbn [fst snd] in *.
  pose proof (span_eq is_space r1) as E2.
  pose proof (span_fst_all is_space r1) as A2.
  destruct (span is_space r1) as [ws r2]. cbn [fst snd] in *.
  destruct ds as [|d ds]; [discriminate|].
  destruct r2 as [|b r]; [discriminate|].
  destruct (Ascii.eqb b "{") eqn:Eb.
  2:{ apply Ascii.eqb_neq in Eb.
      destruct b as [[] [] [] [] [] [] [] []]; try discriminate.
      contradiction. }
  apply Ascii.eqb_eq in Eb. subst b. intros [= _ <-].
  subst s r1.
  match goal with
  | |- colon_free ?n _ = true =>
      replace n with (String.length (String d ds) + (String.length ws + 1))
        by (cbn [String.length]; lia)
  end.
  apply (colon_free_run is_digit); [reflexivity | exact A1|].
  apply (colon_free_run is_space); [reflexivity | exact A2|].
  reflexivity.
Qed.

(** A place where the port pattern matches contributes its group. *)
Lemma findall_port_In (x s g : string) (len : nat) (bol : bool) :
  port_here true s = Some (g, len) ->
  In g (findall port_here 0 bol (x ++ s)).
Proof.
  intros H. revert bol. induction x as [|c x IH]; intros bol; cbn [append].
  - destruct s as [|c s]; [discriminate|].
    cbn [findall]. rewrite (port_here_bol bol true), H. now left.
  - cbn [findall].
    destruct (port_here bol (String c (x ++ s))) as [[g' len']|] eqn:E;
      [|apply IH].
    right. rewrite (findall_port_skip _ _ _ (port_here_consumed _ _ _ _ _ E)).
    apply IH.
Qed.

(** Every group of the port pattern is a non-empty run of digits. *)
Lemma findall_port_digits (s : string) (k : nat) (bol : bool) (g : string) :
  In g (findall port_here k bol s) ->
  all_chars is_digit g = true /\ g <> "".
Proof.
  revert k bol. induction s as [|c s IH]; intros k bol; [intros []|].
  destruct k as [|k]; cbn [findall]; [|apply IH].
  destruct (port_here bol (String c s)) as [[g' len']|] eqn:E; [|apply IH].
  intros [<-|Hin]; [|exact (IH _ _ Hin)].
  unfold port_here in E.
  destruct (Ascii.eqb c ":") eqn:Ec.
  2:{ pose proof (port_here_colon bol c s Ec) as H. unfold port_here in H.
      rewrite H in E. discriminate. }
  apply Ascii.eqb_eq in Ec. subst c.
  pose proof (span_fst_all is_digit s) as A1.
  destruct (span is_digit s) as [ds r1]. cbn [fst snd] in *.
  destruct (span is_space r1) as [ws r2]. cbn [fst snd] in *.
  destruct ds as [|d ds]; [discriminate|].
  destruct r2 as [|b r]; [discriminate|].
  destruct (Ascii.eqb b "{") eqn:Eb.
  2:{ apply Ascii.eqb_neq in Eb.
      destruct b as [[] [] [] [] [] [] [] []]; try discriminate.
      contradiction. }
  apply Ascii.eqb_eq in Eb. subst b. injection E as <- _.
  split; [exact A1 | discriminate].
Qed.

(** ** Digits *)

Lemma all_chars_impl (f g : ascii -> bool) (s : string) :
  (forall c, f c = true -> g c = true) ->
  all_chars f s = true -> all_chars g s = true.
Proof.
  intros Hfg. induction s as [|c s IH]; [reflexivity|]. cbn [all_chars].
  intros H. apply andb_true_iff in H as [Hc Hs].
  now rewrite (Hfg c Hc), (IH Hs).
Qed.

Lemma all_chars_app (f : ascii -> bool) (a b : string) :
  all_chars f (a ++ b) = all_chars f a && all_chars f b.
Proof.
  induction a as [|c a IH]; [reflexivity|]. cbn [append all_chars].
  now rewrite IH, andb_assoc.
Qed.

Lemma all_chars_occurs (f : ascii -> bool) (s : string) :
  (forall c, occurs c s = true -> f c = true) -> all_chars f s = true.
Proof.
  induction s as [|x s IH]; intros H; [reflexivity|]. cbn [all_chars].
  rewrite (H x) by (cbn [occurs]; now rewrite Ascii.eqb_refl).
  apply IH. intros c Hc. apply H. cbn [occurs]. rewrite Hc. apply orb_true_r.
Qed.

Lemma occurs_app (c : ascii) (a b : string) :
  occurs c (a ++ b) = occurs c a || occurs c b.
Proof.
  induction a as [|x a IH]; [reflexivity|]. cbn [append occurs].
  now rewrite IH, orb_assoc.
Qed.

Lemma digit_not_space (c : ascii) : is_digit c = true -> not_space c = true.
Proof.
  destruct c as [[] [] [] [] [] [] [] []]; cbn; intros H;
    first [reflexivity | discriminate H].
Qed.

Lemma uint_digits (d : Decimal.uint) :
  all_chars is_digit (NilEmpty.string_of_uint d) = true.
Proof. induction d; cbn [NilEmpty.string_of_uint all_chars]; auto. Qed.

(** [str(n)] of a natural number is a non-empty run of digits. *)
Lemma str_of_int_digits (n : Z) :
  (0 <= n)%Z ->
  all_chars is_digit (str_of_int n) = true /\ str_of_int n <> "".
Proof.
  intros Hn. unfold str_of_int.
  destruct n as [|q|q]; [split; [reflexivity | discriminate] | | lia].
  cbn [Z.to_int NilZero.string_of_int].
  pose proof (DecimalPos.Unsigned.to_uint_nonnil q) as Hnil.
  pose proof (uint_digits (Pos.to_uint q)) as Hd.
  destruct (Pos.to_uint q); [contradiction|..];
    (split; [exact Hd | discriminate]).
Qed.

Lemma parse_digits_all (s : string) (acc : Z) :
  all_chars is_digit s = true ->
  exists n, parse_digits acc true s = Some n.
Proof.
  revert acc. induction s as [|c s IH]; intros acc H; [now exists acc|].
  cbn [all_chars] in H. apply andb_true_iff in H as [Hc Hs].
  cbn [parse_digits]. rewrite Hc. now apply IH.
Qed.

(** [int] accepts every non-empty run of digits. *)
Lemma py_int_digits (g : string) :
  all_chars is_digit g = true -> g <> "" -> exists n, py_int g = Some n.
Proof.
  intros Hd Hne. unfold py_int.
  rewrite (IntFacts.strip_id g (all_chars_impl _ _ g digit_not_space Hd)).
  destruct g as [|c r]; [contradiction|].
  cbn [all_chars] in Hd. apply andb_true_iff in Hd as [Hc Hr].
  assert (E : forall acc, parse_digits acc false (String c r)
                          = parse_digits (10 * acc + digit_val c) true r).
  { intros acc. cbn [parse_digits]. now rewrite Hc. }
  destruct c as [[] [] [] [] [] [] [] []]; try discriminate Hc;
    rewrite E; now apply parse_digits_all.
Qed.

Lemma ints_spec (l : list string) :
  (forall g, In g l -> exists n, py_int g = Some n) ->
  exists ns, ints l = Some ns /\
             forall g n, In g l -> py_int g = Some n -> In n ns.
Proof.
  induction l as [|x l IH]; intros H.
  - exists []. split; [reflexivity | intros ? ? []].
  - destruct (H x (or_introl eq_refl)) as [n Hn].
    destruct (IH (fun g Hg => H g (or_intror Hg))) as [ns [Hns Hin]].
    exists (n :: ns). cbn [ints]. rewrite Hn, Hns. split; [reflexivity|].
    intros g m [<-|Hg] Hm.
    + left. congruence.
    + right. now apply (Hin g).
Qed.

(** ** The ports that are checked *)

(** The port pattern matches at a colon followed by [str(q)], a blank and an
    opening brace. *)
Lemma port_here_at (q : Z) (R : string) :
  (0 <= q)%Z ->
  port_here true (":" ++ str_of_int q ++ " {" ++ R)
  = Some (str_of_int q, 1 + String.length (str_of_int q) + 1 + 1).
Proof.
  intros Hq. destruct (str_of_int_digits q Hq) as [Hd Hne].
  unfold port_here. cbn [append].
  rewrite (span_app is_digit (str_of_int q) (String " " (String "{" R)) Hd
             eq_refl).
  cbn [fst snd span]. change (is_space " ") with true.
  change (is_space "{") with false. cbn [fst snd String.length].
  destruct (str_of_int q); [contradiction | reflexivity].
Qed.

(** Whatever precedes and follows it, a port written as [:q {] is among
    the ports read back. *)
Lemma port_is_listed (x R : string) (q : Z) :
  (0 <= q)%Z ->
  In q (_extract_listening_ports
          (Some (x ++ ":" ++ str_of_int q ++ " {" ++ R))).
Proof.
  intros Hq. unfold _extract_listening_ports. apply nodup_In.
  pose proof (findall_port_In x _ _ _ true (port_here_at q R Hq)) as Hin.
  destruct (ints_spec (findall port_here 0 true
                         (x ++ ":" ++ str_of_int q ++ " {" ++ R)))
    as [ns [Hns Hall]].
  { intros g Hg. destruct (findall_port_digits _ _ _ _ Hg) as [Hd Hne].
    now apply py_int_digits. }
  rewrite Hns.
  pose proof (Hall _ q Hin (IntFacts.py_int_str_of_int q)) as Hq'.
  destruct ns as [|n ns]; [destruct Hq' | exact Hq'].
Qed.

Lemma findall_port_no_colon (x y : string) (bol : bool) :
  occurs ":" x = false ->
  findall port_here 0 bol (x ++ y) = findall port_here 0 bol y.
Proof.
  revert bol. induction x as [|c x IH]; intros bol H; [reflexivity|].
  cbn [occurs] in H. apply orb_false_iff in H as [Hc Hx].
  cbn [append findall]. rewrite (port_here_colon bol c _ Hc).
  rewrite (findall_port_bol 0 _ bol). now apply IH.
Qed.

Lemma findall_nil (here : bool -> string -> option (string * nat))
    (k : nat) (bol : bool) : findall here k bol "" = [].
Proof. now destruct k. Qed.

Lemma no_colon_in_port (p : Z) : occurs ":" (str_of_int p) = false.
Proof.
  destruct (occurs ":" (str_of_int p)) eqn:E; [|reflexivity].
  apply occurs_str_of_int in E. discriminate E.
Qed.

Lemma proxy_body_open : proxy_body = " {" ++ behead (behead proxy_body).
Proof. reflexivity. Qed.

(** X25.  The backend port is read back as a listening port: for every
    configuration rendered from a template, whatever the domain,
    [_extract_listening_ports] (the ports [_check_ports] goes through)
    returns the port of the [reverse_proxy] upstream among its ports,
    because [host:port {] fits the pattern meant for the site address. *)
Theorem backend_port_is_checked_as_listening (v : Variant)
    (d h dir : string) (p : Z) :
  (0 <= p)%Z ->
  In p (_extract_listening_ports (Some (template v d h p dir))).
Proof.
  intros Hp. unfold template.
  rewrite <- (append_assoc site_open h).
  rewrite <- (append_assoc d (site_open ++ h)).
  exact (port_is_listed (d ++ site_open ++ h) _ p Hp).
Qed.

Lemma backend_port_is_checked_as_listening_witness :
  In 3000%Z (_extract_listening_ports
               (Some (template Https "example.com" "127.0.0.1" 3000
                        "/opt/relay/caddy"))).
Proof.
  apply (backend_port_is_checked_as_listening Https "example.com"
           "127.0.0.1" "/opt/relay/caddy" 3000). lia.
Defined.

(** X26.  A port given with the site address is read back: for a listen
    spec [host:q], [_extract_listening_ports] of the rendered configuration
    has [q] among its ports. *)
Theorem listen_port_is_read_back (v : Variant) (host h dir : string)
    (q p : Z) :
  (0 <= q)%Z ->
  In q (_extract_listening_ports
          (Some (template v (host ++ ":" ++ str_of_int q) h p dir))).
Proof.
  intros Hq. unfold template.
  rewrite !append_assoc.
  exact (port_is_listed host _ q Hq).
Qed.

Lemma listen_port_is_read_back_witness :
  In 8080%Z (_extract_listening_ports
               (Some (template HttpOnly ("example.com" ++ ":" ++ str_of_int 8080)
                        "127.0.0.1" 3000 "/opt/relay/caddy"))).
Proof.
  apply (listen_port_is_read_back HttpOnly "example.com" "127.0.0.1"
           "/opt/relay/caddy" 8080 3000). lia.
Defined.

(** X27.  For a site address without a port only the backend port is read
    back: when neither the domain, the backend host nor the directory holds
    a colon, [_extract_listening_ports] of the rendered configuration returns
    exactly [[backend_port]]; the defaults 80 and 443 are not used. *)
Theorem bare_domain_checks_only_backend_port (v : Variant)
    (d h dir : string) (p : Z) :
  (0 <= p)%Z ->
  occurs ":" d = false -> occurs ":" h = false -> occurs ":" dir = false ->
  _extract_listening_ports (Some (template v d h p dir)) = [p].
Proof.
  intros Hp Hd Hh Hdir. unfold _extract_listening_ports, template.
  rewrite <- (append_assoc site_open h).
  rewrite <- (append_assoc d (site_open ++ h)).
  rewrite (findall_port_no_colon (d ++ site_open ++ h)).
  2:{ rewrite !occurs_app, Hd, Hh. reflexivity. }
  set (R := header_block v ++ log_open ++ dir ++ log_tail (roll_keep v)).
  assert (HR : occurs ":" R = false).
  { unfold R. rewrite !occurs_app, Hdir. now destruct v. }
  rewrite proxy_body_open, (append_assoc " {").
  set (B := behead (behead proxy_body)).
  assert (HB : occurs ":" (B ++ R) = false).
  { rewrite occurs_app, HR. reflexivity. }
  pose proof (port_here_at p (B ++ R) Hp) as Hm.
  cbn [append] in Hm |- *. cbn [findall]. rewrite Hm.
  match goal with
  | |- context [findall port_here ?k ?b ?t] =>
      replace (findall port_here k b t) with (@nil string)
  end.
  - cbn [ints]. rewrite (IntFacts.py_int_str_of_int p). reflexivity.
  - symmetry.
    match goal with
    | |- findall port_here ?k ?b ?t = [] =>
        rewrite (findall_port_skip t k b)
    end.
    + rewrite <- (append_nil_r (str_of_int p ++ _)).
      rewrite (findall_port_no_colon _ "").
      * apply findall_nil.
      * rewrite occurs_app, no_colon_in_port. cbn [occurs orb Ascii.eqb].
        exact HB.
    + match goal with
      | |- colon_free ?k ?t = true =>
          replace k with (String.length (str_of_int p) + 2) by lia
      end.
      apply (colon_free_run (fun c => negb (Ascii.eqb c ":"))).
      * reflexivity.
      * apply all_chars_occurs. intros c Hc.
        destruct (Ascii.eqb_spec c ":") as [->|_]; [|reflexivity].
        now rewrite no_colon_in_port in Hc.
      * reflexivity.
Qed.

Lemma bare_domain_checks_only_backend_port_witness :
  _extract_listening_ports
    (Some (template Https "example.com" "backend" 3000 "/opt/relay/caddy"))
  = [3000%Z].
Proof.
  apply (bare_domain_checks_only_backend_port Https "example.com" "backend"
           "/opt/relay/caddy" 3000); [lia | reflexivity..].
Defined.

(** ** Skipping *)


Lemma findall_bol_indep (here : bool -> string -> option (string * nat))
    (k : nat) (b1 b2 : bool) (s : string) :
  (forall b b' t, here b t = here b' t) ->
  findall here k b1 s = findall here k b2 s.
Proof.
  intros H. destruct s as [|c s]; [reflexivity|]. cbn [findall].
  now rewrite (H b1 b2).
Qed.

Lemma findall_skip_indep (here : bool -> string -> option (string * nat))
    (x y : string) (bol : bool) :
  (forall b b' t, here b t = here b' t) ->
  findall here (String.length x) bol (x ++ y) = findall here 0 bol y.
Proof.
  intros H. revert bol. induction x as [|a x IH]; intros bol; [reflexivity|].
  cbn [String.length append findall].
  rewrite (findall_bol_indep here _ _ bol _ H). apply IH.
Qed.

Lemma plain_name_char (c : ascii) : is_plain c = true -> is_name_char c = true.
Proof. unfold is_plain. intros H. now apply andb_true_iff in H as [H _]. Qed.

Lemma name_char_not_space (c : ascii) :
  is_name_char c = true -> not_space c = true.
Proof. unfold is_name_char. intros H. now apply andb_true_iff in H as [H _]. Qed.

Lemma name_char_is_space (c : ascii) :
  is_name_char c = true -> is_space c = false.
Proof.
  intros H. apply name_char_not_space in H. now apply negb_true_iff in H.
Qed.

(** ** The site pattern *)







Lemma template_open (v : Variant) (d h dir : string) (p : Z) :
  template v d h p dir
  = d ++ " {" ++ nl ++ "    reverse_proxy " ++ h ++ ":" ++ str_of_int p ++
    proxy_body ++ header_block v ++ log_open ++ dir ++ log_tail (roll_keep v).
Proof. unfold template, site_open. now rewrite !append_assoc. Qed.







(** ** The upstream pattern *)

Lemma after_prefix_some (lit s r : string) :
  after_prefix lit s = Some r -> String.prefix lit s = true.
Proof.
  revert s. induction lit as [|a lit IH]; intros s H.
  - apply prefix_nil_l.
  - destruct s as [|b s]; [discriminate|]. cbn [after_prefix] in H.
    rewrite prefix_cons. destruct (Ascii.eqb a b); [|discriminate].
    now rewrite (IH s H).
Qed.

Lemma after_prefix_app (lit r : string) : after_prefix lit (lit ++ r) = Some r.
Proof.
  induction lit as [|a lit IH]; [reflexivity|].
  cbn [append after_prefix]. now rewrite Ascii.eqb_refl.
Qed.

Lemma proxy_here_none (bol : bool) (s : string) :
  String.prefix "reverse_proxy" s = false -> proxy_here bol s = None.
Proof.
  intros H. unfold proxy_here.
  destruct (after_prefix "reverse_proxy" s) as [r|] eqn:E; [|reflexivity].
  apply after_prefix_some in E. congruence.
Qed.

Lemma proxy_here_bol (b b' : bool) (t : string) :
  proxy_here b t = proxy_here b' t.
Proof. reflexivity. Qed.

(** Text that does not hold the word [reverse_proxy], followed by a
    character that is not in the word, holds no match. *)
Lemma findall_proxy_quiet (x : string) (c0 : ascii) (rest : string)
    (bol : bool) :
  contains "reverse_proxy" x = false ->
  occurs c0 "reverse_proxy" = false ->
  findall proxy_here 0 bol (x ++ String c0 rest)
  = findall proxy_here 0 bol (String c0 rest).
Proof.
  intros Hx Hc. revert bol. induction x as [|c x IH]; intros bol;
    [reflexivity|].
  rewrite contains_unfold in Hx. apply orb_false_iff in Hx as [Hp Hx].
  cbn [append findall].
  rewrite (proxy_here_none bol (String c (x ++ String c0 rest))).
  - rewrite (findall_bol_indep proxy_here 0 _ bol _ proxy_here_bol).
    now apply IH.
  - rewrite (prefix_sep c0 "reverse_proxy" (String c x) rest Hc
             : String.prefix _ (String c (x ++ String c0 rest)) = _).
    exact Hp.
Qed.

Lemma proxy_here_at (bol : bool) (N R : string) :
  all_chars is_name_char N = true -> N <> "" ->
  proxy_here bol (String "r" (("everse_proxy " ++ N) ++ String " " (String "{" R)))
  = Some (N, S (String.length ("everse_proxy " ++ N))).
Proof.
  intros HN Hne. unfold proxy_here.
  set (T := String " " (String "{" R)).
  change (String "r" (("everse_proxy " ++ N) ++ T))
    with ("reverse_proxy" ++ " " ++ N ++ T).
  rewrite after_prefix_app.
  assert (Hs : span is_space (" " ++ N ++ T) = (" ", N ++ T)).
  { apply (span_app is_space " " (N ++ T) eq_refl).
    destruct N as [|n N]; [contradiction|]. cbn [append all_chars] in HN |- *.
    apply andb_true_iff in HN as [Hn _]. now apply name_char_is_space. }
  rewrite Hs. cbn [fst snd].
  rewrite (span_app is_name_char N T HN eq_refl). cbn [fst snd].
  destruct N; [contradiction | reflexivity].
Qed.

(** A match that consumed [c] and [x] is followed by the matches behind
    it. *)
Lemma findall_match_indep (here : bool -> string -> option (string * nat))
    (c : ascii) (x y g : string) (bol : bool) :
  (forall b b' t, here b t = here b' t) ->
  here bol (String c (x ++ y)) = Some (g, S (String.length x)) ->
  findall here 0 bol (String c (x ++ y)) = g :: findall here 0 bol y.
Proof.
  intros H Hm. cbn [findall]. rewrite Hm. f_equal.
  replace (S (String.length x) - 1) with (String.length x) by lia.
  rewrite (findall_bol_indep here _ _ bol _ H).
  now apply findall_skip_indep.
Qed.

Lemma findall_proxy_blank (bol : bool) (Y : string) :
  findall proxy_here 0 bol (String " " Y) = findall proxy_here 0 bol Y.
Proof.
  cbn [findall]. rewrite (proxy_here_none bol (String " " Y) eq_refl).
  apply (findall_bol_indep proxy_here _ _ _ _ proxy_here_bol).
Qed.

(** The fixed text between the upstream and the directory, without its
    final blank. *)
Lemma body_split (v : Variant) (Y : string) :
  behead (behead proxy_body) ++ header_block v ++ log_open ++ Y
  = (behead (behead proxy_body) ++ header_block v ++ inner_log
     ++ "output file") ++ String " " Y.
Proof.
  change log_open with (inner_log ++ "output file" ++ " ").
  now rewrite !append_assoc.
Qed.

Lemma body_quiet (v : Variant) :
  contains "reverse_proxy"
    (behead (behead proxy_body) ++ header_block v ++ inner_log
     ++ "output file") = false.
Proof. destruct v; vm_compute; reflexivity. Qed.

Lemma proxy_quiet_tail (v : Variant) (bol : bool) :
  findall proxy_here 0 bol (log_tail (roll_keep v)) = [].
Proof. destruct v; destruct bol; vm_compute; reflexivity. Qed.

Lemma port_name_chars (p : Z) : all_chars is_name_char (str_of_int p) = true.
Proof.
  apply all_chars_occurs. intros c Hc. apply occurs_str_of_int in Hc.
  cbn [occurs] in Hc.
  repeat (apply orb_true_iff in Hc as [Hc|Hc];
          [apply Ascii.eqb_eq in Hc; subst c; reflexivity|]).
  discriminate Hc.
Qed.

(** X30.  The upstream read back from a rendered configuration is the
    backend it was rendered for: when neither the domain nor the directory
    holds the word [reverse_proxy] and the backend host consists of ASCII
    characters other than white space and braces,
    [_extract_backend_endpoints] returns exactly [host:port]. *)
Theorem backend_endpoint_is_read_back (v : Variant) (d h dir : string)
    (p : Z) :
  contains "reverse_proxy" d = false ->
  contains "reverse_proxy" dir = false ->
  all_chars is_plain h = true ->
  _extract_backend_endpoints (Some (template v d h p dir))
  = [h ++ ":" ++ str_of_int p].
Proof.
  intros Hd Hdir Hh.
  pose proof (all_chars_impl _ _ h plain_name_char Hh) as Hn.
  assert (HN : all_chars is_name_char (h ++ ":" ++ str_of_int p) = true).
  { rewrite !all_chars_app, Hn, port_name_chars. reflexivity. }
  assert (HNe : h ++ ":" ++ str_of_int p <> "") by (destruct h; discriminate).
  set (B := behead (behead proxy_body)).
  set (X := B ++ header_block v ++ inner_log ++ "output file").
  set (T := behead (log_tail (roll_keep v))).
  assert (E : template v d h p dir
              = (d ++ String " " ("{" ++ nl ++ "   ")) ++
                String " " (String "r"
                  (("everse_proxy " ++ h ++ ":" ++ str_of_int p) ++
                   String " " (String "{"
                     ((X ++ String " " dir) ++ String "/" T))))).
  { rewrite template_open, proxy_body_open.
    replace (log_tail (roll_keep v)) with (String "/" T)
      by (unfold T; now destruct v).
    unfold X, B. rewrite <- (body_split v dir).
    rewrite !append_assoc. reflexivity. }
  unfold _extract_backend_endpoints. rewrite E. clear E.
  remember (h ++ ":" ++ str_of_int p) as N eqn:EN. clear EN Hn Hh.
  rewrite (findall_proxy_quiet _ " " _ true).
  2:{ rewrite (contains_sep " " "reverse_proxy" d _ eq_refl), Hd.
      reflexivity. }
  2:{ reflexivity. }
  rewrite findall_proxy_blank.
  rewrite (findall_match_indep proxy_here "r" ("everse_proxy " ++ N) _ N true
             proxy_here_bol (proxy_here_at true N _ HN HNe)).
  change (String " " (String "{" ((X ++ String " " dir) ++ String "/" T)))
    with ((" {" ++ X ++ String " " dir) ++ String "/" T).
  rewrite (findall_proxy_quiet _ "/" T true).
  2:{ change (" {" ++ X ++ String " " dir)
        with ((" {" ++ X) ++ String " " dir).
      rewrite (contains_sep " " "reverse_proxy" (" {" ++ X) dir eq_refl), Hdir.
      rewrite orb_false_r. unfold X, B.
      rewrite (contains_unfold "reverse_proxy" (" {" ++ _)).
      cbn [append]. rewrite (contains_unfold "reverse_proxy" (String "{" _)).
      rewrite (body_quiet v). reflexivity. }
  2:{ reflexivity. }
  replace (String "/" T) with (log_tail (roll_keep v))
    by (unfold T; now destruct v).
  rewrite proxy_quiet_tail. cbn [map]. f_equal.
  apply IntFacts.strip_id.
  exact (all_chars_impl _ _ N name_char_not_space HN).
Qed.

Lemma backend_endpoint_is_read_back_witness :
  _extract_backend_endpoints
    (Some (template Https "example.com" "127.0.0.1" 3000 "/opt/relay/caddy"))
  = ["127.0.0.1:3000"].
Proof.
  apply (backend_endpoint_is_read_back Https "example.com" "127.0.0.1"
           "/opt/relay/caddy" 3000); reflexivity.
Defined.

End ExtractFacts.
